(** * llm_ib_poc: the prompt-driven action dispatch protocol

    A shallow embedding of [app.py] (schema description, completion client,
    tool dispatch, session loop) and of the capabilities of [ib.py].

    Python [str] values are sequences of Unicode code points, so that the
    whitespace of [str.split] and [str.strip] is Python's own. *)

From Stdlib Require Import List NArith ZArith Bool String Ascii Lia.
From Stdlib Require Import DecimalString.
Import ListNotations.

Set Implicit Arguments.
Set Warnings "-register-all".

(* ================================================================== *)
(** ** Python strings *)

Definition pystr := list N.

(** A source literal, written as a Rocq string of ASCII characters. *)
Definition py (s : string) : pystr :=
  map N_of_ascii (list_ascii_of_string s).

Definition pystr_eqb (a b : pystr) : bool :=
  if list_eq_dec N.eq_dec a b then true else false.

(** [str.isspace] on one code point: the characters [str.split()] and
    [str.strip()] treat as whitespace. *)
Definition isspace (c : N) : bool :=
  (((9 <=? c) && (c <=? 13)) || ((28 <=? c) && (c <=? 32))
   || (c =? 133) || (c =? 160) || (c =? 5760)
   || ((8192 <=? c) && (c <=? 8202))
   || (c =? 8232) || (c =? 8233) || (c =? 8239) || (c =? 8287)
   || (c =? 12288))%N.

Definition SPACE : N := 32%N.

(** [cur] is the word being read, in order. *)
Fixpoint split_from (cur : pystr) (s : pystr) : list pystr :=
  match s with
  | [] => match cur with [] => [] | _ => [cur] end
  | c :: s' =>
      if isspace c
      then match cur with
           | [] => split_from [] s'
           | _ => cur :: split_from [] s'
           end
      else split_from (cur ++ [c]) s'
  end.

(** [s.split()] *)
Definition split (s : pystr) : list pystr := split_from [] s.

(** [sep.join(l)] *)
Fixpoint join (sep : pystr) (l : list pystr) : pystr :=
  match l with
  | [] => []
  | [w] => w
  | w :: ws => w ++ sep ++ join sep ws
  end.

Fixpoint lstrip (s : pystr) : pystr :=
  match s with
  | [] => []
  | c :: s' => if isspace c then lstrip s' else s
  end.

Definition rstrip (s : pystr) : pystr := rev (lstrip (rev s)).

(** [s.strip()] *)
Definition strip (s : pystr) : pystr := rstrip (lstrip s).

(** [s.startswith(pat)] *)
Fixpoint startswith (pat s : pystr) : bool :=
  match pat, s with
  | [], _ => true
  | _ :: _, [] => false
  | p :: pat', c :: s' => (p =? c)%N && startswith pat' s'
  end.

(** [re.sub(pat, rep, s)] for a non-empty pattern without metacharacters:
    scanning from the left, each match is replaced and the scan resumes
    after it.  [skip] counts the characters of the current match still to
    pass over. *)
Fixpoint re_sub_from (skip : nat) (pat rep s : pystr) : pystr :=
  match s with
  | [] => []
  | c :: s' =>
      match skip with
      | S k => re_sub_from k pat rep s'
      | O =>
          if startswith pat s
          then rep ++ re_sub_from (List.length pat - 1) pat rep s'
          else c :: re_sub_from 0 pat rep s'
      end
  end.

Definition re_sub (pat rep s : pystr) : pystr := re_sub_from 0 pat rep s.

(* ================================================================== *)
(** ** app.py: get_tool_schema *)

(** What [inspect.signature] reports for one parameter: its name, the
    [__name__] of its annotation ([None] for [Parameter.empty]) and the
    text [str(param.default)] ([None] for [Parameter.empty]). *)
Record ParamInfo := {
  param_name : pystr;
  annotation : option pystr;
  default : option pystr
}.

(** What [inspect] reports for a tool function: its parameters in
    declaration order and the result of [inspect.getdoc]. *)
Record Signature := {
  parameters : list ParamInfo;
  getdoc : option pystr
}.

(** One iteration of the loop over [sig.parameters.items()]. *)
Definition schema_step (params : list pystr) (param : ParamInfo)
  : list pystr :=
  let param_type :=
    match annotation param with Some n => n | None => py "unknown" end in
  let default :=
    match default param with
    | Some d => py ", default '" ++ d ++ py "'"
    | None => []
    end in
  params ++ [param_name param ++ py " (" ++ param_type ++ default ++ py ")"].

Definition get_tool_schema (tool_name : pystr) (tool_func : Signature)
  : pystr :=
  let params := fold_left schema_step (parameters tool_func) [] in
  let docstring :=
    match getdoc tool_func with
    | None | Some [] => py "No description available."
    | Some d => d
    end in
  let docstring := join (py " ") (split docstring) in
  tool_name ++ py ": Parameters: "
    ++ match params with
       | [] => py "No parameters"
       | _ => join (py ", ") params
       end
    ++ py ". " ++ docstring.

(* ================================================================== *)
(** ** Python values, exceptions and the console *)

(** The values a response evaluates to and the tools exchange.  A dict
    keeps its items in insertion order, one item per key. *)
Inductive PyVal :=
| VNone
| VBool (b : bool)
| VInt (z : Z)
| VStr (s : pystr)
| VList (l : list PyVal)
| VDict (d : list (PyVal * PyVal)).

(** Errors the interpreter raises on its own; their text is the
    interpreter's. *)
Inductive InterpError :=
| NoAttribute (v : PyVal) (attr : pystr)   (* AttributeError *)
| NotIterable (v : PyVal)                  (* TypeError *)
| Unhashable (v : PyVal)                   (* TypeError *)
| BadSubscript (v : PyVal)                 (* TypeError of [v[key]] *)
| MissingKey (k : PyVal)                   (* KeyError, IndexError *)
| BadCall (fname : pystr) (kwargs : PyVal) (* TypeError of a keyword call *)
| EndOfInput.                              (* EOFError of [input] *)

Inductive PyExn :=
| Raised (cls : pystr) (msg : pystr)       (* [raise cls(msg)] *)
| Interp (err : InterpError).

Inductive result (A : Type) :=
| Ok (a : A)
| Raise (e : PyExn).
Arguments Ok {A} a.
Arguments Raise {A} e.

(** What the program writes to the console, one entry per [print] (and
    per [input] prompt), holding the values formatted into the line. *)
Inductive Event :=
| PrintGreeting                                  (* app.py:89 *)
| InputPrompt                                    (* app.py:91 *)
| PrintChunk (chunk_message : pystr)             (* app.py:64 *)
| PrintNewline                                   (* app.py:66 *)
| PrintActivate (tool_name : pystr) (params : PyVal)     (* app.py:81 *)
| PrintToolResult (tool_name tool_result : PyVal)        (* app.py:109 *)
| PrintNoActions                                 (* app.py:101 *)
| PrintError (e : PyExn).                        (* app.py:118 *)

(** Truth value of a Python value, as tested by [if not actions]. *)
Definition truthy (v : PyVal) : bool :=
  match v with
  | VNone => false
  | VBool b => b
  | VInt z => negb (z =? 0)%Z
  | VStr s => match s with [] => false | _ => true end
  | VList l => match l with [] => false | _ => true end
  | VDict d => match d with [] => false | _ => true end
  end.

(** Lookup of a [str] key among the items of a dict. *)
Fixpoint dict_lookup (d : list (PyVal * PyVal)) (key : pystr)
  : option PyVal :=
  match d with
  | [] => None
  | (VStr k, v) :: d' => if pystr_eqb k key then Some v else dict_lookup d' key
  | _ :: d' => dict_lookup d' key
  end.

(** [v.get(key, dflt)] *)
Definition py_get (v : PyVal) (key : pystr) (dflt : PyVal) : result PyVal :=
  match v with
  | VDict d =>
      match dict_lookup d key with Some x => Ok x | None => Ok dflt end
  | _ => Raise (Interp (NoAttribute v (py "get")))
  end.

(** [v[key]] for a [str] key *)
Definition py_getitem (v : PyVal) (key : pystr) : result PyVal :=
  match v with
  | VDict d =>
      match dict_lookup d key with
      | Some x => Ok x
      | None => Raise (Interp (MissingKey (VStr key)))
      end
  | _ => Raise (Interp (BadSubscript v))
  end.

(** The items [for x in v] visits. *)
Definition py_iter (v : PyVal) : result (list PyVal) :=
  match v with
  | VList l => Ok l
  | VDict d => Ok (map fst d)
  | VStr s => Ok (map (fun c => VStr [c]) s)
  | _ => Raise (Interp (NotIterable v))
  end.

(** [v == "lit"] for a [str] literal *)
Definition eq_str (v : PyVal) (lit : pystr) : bool :=
  match v with
  | VStr s => pystr_eqb s lit
  | _ => false
  end.

(** [str(z)] of an [int] *)
Definition str_int (z : Z) : pystr :=
  py (DecimalString.NilZero.string_of_int (Z.to_int z)).

(** ib.py: create_response *)
Definition create_response (result : pystr) (message : PyVal) : PyVal :=
  VDict [(VStr (py "result"), VStr result); (VStr (py "message"), message)].

(* ================================================================== *)
(** ** The world outside the program *)

(** A streamed completion: the [content] of the deltas in arrival order,
    and the error that ends the stream early, if any. *)
Record Stream := {
  deltas : list (option pystr);
  broken : option PyExn
}.

(** The interpreter, the completion service, the environment and
    ib_insync.  [H] is the state of an [IB] object. *)
Record Externals (H : Type) := {
  py_eval : pystr -> result PyVal;                    (* eval *)
  py_repr : PyVal -> pystr;                           (* repr *)
  interp_text : InterpError -> pystr;                 (* str(e) *)
  inspect_TOOLS : list (pystr * Signature);           (* inspect, on TOOLS *)
  chat_completions_create : pystr -> pystr -> result Stream;
  IB_HOST : pystr;
  IB_PORT : Z;
  IB_CLIENT : Z;
  IB : result H;                                      (* IB() *)
  IB_isConnected : H -> bool;                         (* ib.isConnected() *)
  IB_method : pystr -> list PyVal -> H -> result PyVal * H;
  ib_insync_new : pystr -> list PyVal -> result PyVal;(* Stock, LimitOrder *)
  py_getattr : H -> PyVal -> pystr -> result PyVal;   (* obj.attr *)
  py_vars : H -> PyVal -> result PyVal                (* vars(obj) *)
}.

(** The program's state: [is_connected] of [main], the global [ib] of
    ib.py, and the console, latest entry first. *)
Record World (H : Type) := {
  is_connected : bool;
  ib : option H;
  console : list Event
}.

Section Program.

Variable H : Type.
Variable X : Externals H.

(** A statement over a state [S]: it ends normally or raises, and leaves
    a state. *)
Definition SE (S A : Type) : Type := S -> result A * S.

Definition ret {S A} (a : A) : SE S A := fun w => (Ok a, w).

Definition raise {S A} (e : PyExn) : SE S A := fun w => (Raise e, w).

Definition bind {S A B} (c : SE S A) (k : A -> SE S B) : SE S B :=
  fun w =>
    match c w with
    | (Ok a, w') => k a w'
    | (Raise e, w') => (Raise e, w')
    end.

Notation "x <- c ;; k" := (bind c (fun x => k))
  (at level 61, c at next level, right associativity).
Notation "c ;; k" := (bind c (fun _ => k))
  (at level 61, right associativity).

Definition lift {S A} (r : result A) : SE S A := fun w => (r, w).

(** [try: c  except Exception as e: handler e] *)
Definition try_except {S A} (c : SE S A) (handler : PyExn -> SE S A)
  : SE S A :=
  fun w =>
    match c w with
    | (Ok a, w') => (Ok a, w')
    | (Raise e, w') => handler e w'
    end.

(** The statements of ib.py act on its global [ib]; those of app.py on
    the whole world. *)
Definition IBM : Type -> Type := SE (option H).
Definition M : Type -> Type := SE (World H).

(** A statement of ib.py, run from app.py. *)
Definition in_ib {A} (c : IBM A) : M A :=
  fun w =>
    let (r, o) := c (ib w) in
    (r, {| is_connected := is_connected w; ib := o;
           console := console w |}).

Definition print (ev : Event) : M unit :=
  fun w => (Ok tt, {| is_connected := is_connected w; ib := ib w;
                      console := ev :: console w |}).

Definition set_is_connected (b : bool) : M unit :=
  fun w => (Ok tt, {| is_connected := b; ib := ib w;
                      console := console w |}).

Definition set_ib (h : option H) : IBM unit := fun _ => (Ok tt, h).

Definition get_is_connected : M bool := fun w => (Ok (is_connected w), w).

Definition get_ib : IBM (option H) := fun o => (Ok o, o).

(** [str(e)] *)
Definition str_exn (e : PyExn) : pystr :=
  match e with
  | Raised _ msg => msg
  | Interp err => interp_text X err
  end.

(** [str(v)], as an f-string formats [v] *)
Definition py_str (v : PyVal) : pystr :=
  match v with
  | VNone => py "None"
  | VBool true => py "True"
  | VBool false => py "False"
  | VInt z => str_int z
  | VStr s => s
  | _ => py_repr X v
  end.

(* ------------------------------------------------------------------ *)
(** *** ib.py *)

(** [ib.name(args)] on the global [ib] *)
Definition ib_call (name : pystr) (args : list PyVal) : IBM PyVal :=
  fun o =>
    match o with
    | Some h =>
        let (r, h') := IB_method X name args h in (r, Some h')
    | None => (Raise (Interp (NoAttribute VNone name)), None)
    end.

(** [ib is not None and ib.isConnected()] *)
Definition ib_is_connected : IBM bool :=
  o <- get_ib ;;
  match o with
  | Some h => ret (IB_isConnected X h)
  | None => ret false
  end.

(** [obj.attr], read in the current state of [ib] *)
Definition getattr (obj : PyVal) (attr : pystr) : IBM PyVal :=
  fun o =>
    match o with
    | Some h => (py_getattr X h obj attr, o)
    | None => (Raise (Interp (NoAttribute VNone attr)), o)
    end.

Definition vars (obj : PyVal) : IBM PyVal :=
  fun o =>
    match o with
    | Some h => (py_vars X h obj, o)
    | None => (Raise (Interp (NoAttribute VNone (py "__dict__"))), o)
    end.

Definition success (message : PyVal) : PyVal :=
  create_response (py "success") message.

Definition failed (message : pystr) : PyVal :=
  create_response (py "failed") (VStr message).

Definition NOT_CONNECTED : pystr :=
  py "Not connected to IB TWS. Use 'connect' first.".

Definition connect : IBM PyVal :=
  try_except
    (h <- lift (IB X) ;;
     set_ib (Some h) ;;
     ib_call (py "connect")
       [VStr (IB_HOST X); VInt (IB_PORT X); VInt (IB_CLIENT X)] ;;
     ret (success (VStr (py "Connected to IB TWS at " ++ IB_HOST X
                           ++ py ":" ++ str_int (IB_PORT X)
                           ++ py " with client ID "
                           ++ str_int (IB_CLIENT X)))))
    (fun e => ret (failed (py "Failed to connect: " ++ str_exn e))).

Definition disconnect : IBM PyVal :=
  c <- ib_is_connected ;;
  if c
  then ib_call (py "disconnect") [] ;;
       ret (success (VStr (py "Disconnected from IB TWS")))
  else ret (failed (py "No active connection to disconnect")).

(** [v[0]] *)
Definition py_first (v : PyVal) : result PyVal :=
  match v with
  | VList (x :: _) => Ok x
  | VStr (c :: _) => Ok (VStr [c])
  | VList [] | VStr [] => Raise (Interp (MissingKey (VInt 0)))
  | VDict d =>
      match find (fun kv => match fst kv with
                            | VInt 0 | VBool false => true
                            | _ => false
                            end) d with
      | Some kv => Ok (snd kv)
      | None => Raise (Interp (MissingKey (VInt 0)))
      end
  | _ => Raise (Interp (BadSubscript v))
  end.

(** [[f x for x in l]] *)
Fixpoint for_each {A B} (f : A -> IBM B) (l : list A) : IBM (list B) :=
  match l with
  | [] => ret []
  | x :: l' => y <- f x ;; ys <- for_each f l' ;; ret (y :: ys)
  end.

Definition qualifyContracts (symbol secType exchange currency : PyVal)
  : IBM PyVal :=
  c <- ib_is_connected ;;
  if negb c then ret (failed NOT_CONNECTED)
  else
    contract <- lift (ib_insync_new X (py "Stock")
                        [symbol; exchange; currency]) ;;
    try_except
      (qualified_contracts <- ib_call (py "qualifyContracts") [contract] ;;
       if truthy qualified_contracts
       then first <- lift (py_first qualified_contracts) ;;
            d <- vars first ;;
            ret (success (VDict [(VStr (py "contract"), d)]))
       else ret (failed (py "Contract qualification failed")))
      (fun e => ret (failed (str_exn e))).

Definition reqMktData (symbol secType exchange currency : PyVal)
  : IBM PyVal :=
  c <- ib_is_connected ;;
  if negb c then ret (failed NOT_CONNECTED)
  else
    contract <- lift (ib_insync_new X (py "Stock")
                        [symbol; exchange; currency]) ;;
    ib_call (py "qualifyContracts") [contract] ;;
    try_except
      (ticker <- ib_call (py "reqMktData") [contract] ;;
       ib_call (py "sleep") [VInt 1] ;;
       bid <- getattr ticker (py "bid") ;;
       ask <- getattr ticker (py "ask") ;;
       last <- getattr ticker (py "last") ;;
       volume <- getattr ticker (py "volume") ;;
       ret (success (VDict [(VStr (py "symbol"), symbol);
                            (VStr (py "bid"), bid);
                            (VStr (py "ask"), ask);
                            (VStr (py "last"), last);
                            (VStr (py "volume"), volume)])))
      (fun e => ret (failed (str_exn e))).

Definition placeOrder
  (symbol action quantity limitPrice secType exchange currency : PyVal)
  : IBM PyVal :=
  c <- ib_is_connected ;;
  if negb c then ret (failed NOT_CONNECTED)
  else
    contract <- lift (ib_insync_new X (py "Stock")
                        [symbol; exchange; currency]) ;;
    ib_call (py "qualifyContracts") [contract] ;;
    order <- lift (ib_insync_new X (py "LimitOrder")
                     [action; quantity; limitPrice]) ;;
    try_except
      (trade <- ib_call (py "placeOrder") [contract; order] ;;
       ib_call (py "sleep") [VInt 1] ;;
       o <- getattr trade (py "order") ;;
       orderId <- getattr o (py "orderId") ;;
       o' <- getattr trade (py "order") ;;
       details <- vars o' ;;
       ret (success (VDict [(VStr (py "orderId"), orderId);
                            (VStr (py "details"), details)])))
      (fun e => ret (failed (str_exn e))).

Definition positions (account : PyVal) : IBM PyVal :=
  c <- ib_is_connected ;;
  if negb c then ret (failed NOT_CONNECTED)
  else
    try_except
      (positions_list <- ib_call (py "positions") [account] ;;
       items <- lift (py_iter positions_list) ;;
       rows <- for_each
                 (fun pos =>
                    contract <- getattr pos (py "contract") ;;
                    symbol <- getattr contract (py "symbol") ;;
                    quantity <- getattr pos (py "position") ;;
                    avgCost <- getattr pos (py "avgCost") ;;
                    ret (VDict [(VStr (py "symbol"), symbol);
                                (VStr (py "quantity"), quantity);
                                (VStr (py "avgCost"), avgCost)]))
                 items ;;
       ret (success (VList rows)))
      (fun e => ret (failed (str_exn e))).

Definition accountValues (account : PyVal) : IBM PyVal :=
  c <- ib_is_connected ;;
  if negb c then ret (failed NOT_CONNECTED)
  else
    try_except
      (values <- ib_call (py "accountValues") [account] ;;
       items <- lift (py_iter values) ;;
       rows <- for_each
                 (fun val =>
                    tag <- getattr val (py "tag") ;;
                    value <- getattr val (py "value") ;;
                    currency <- getattr val (py "currency") ;;
                    ret (VDict [(VStr (py "key"), tag);
                                (VStr (py "value"), value);
                                (VStr (py "currency"), currency)]))
                 items ;;
       ret (success (VList rows)))
      (fun e => ret (failed (str_exn e))).

(* ------------------------------------------------------------------ *)
(** *** Calling a tool with keyword arguments *)

(** The keywords of [params], when every key is a [str]. *)
Fixpoint keywords (d : list (PyVal * PyVal))
  : option (list (pystr * PyVal)) :=
  match d with
  | [] => Some []
  | (VStr k, v) :: d' =>
      match keywords d' with
      | Some kw => Some ((k, v) :: kw)
      | None => None
      end
  | _ :: _ => None
  end.

Fixpoint keyword (name : pystr) (kw : list (pystr * PyVal))
  : option PyVal :=
  match kw with
  | [] => None
  | (k, v) :: kw' => if pystr_eqb k name then Some v else keyword name kw'
  end.

(** The value of each declared parameter: the keyword given for it, or
    else its default; [None] when a parameter without default is not
    given. *)
Fixpoint bind_params (decls : list (pystr * option PyVal))
  (kw : list (pystr * PyVal)) : option (list (pystr * PyVal)) :=
  match decls with
  | [] => Some []
  | (name, dflt) :: decls' =>
      let given :=
        match keyword name kw with Some v => Some v | None => dflt end in
      match given, bind_params decls' kw with
      | Some v, Some env => Some ((name, v) :: env)
      | _, _ => None
      end
  end.

Definition arg (env : list (pystr * PyVal)) (name : pystr) : PyVal :=
  match keyword name env with Some v => v | None => VNone end.

(** The call of a function declared with [decls], with [params] expanded
    as its keyword arguments.  It raises TypeError unless [params] is a
    mapping with [str] keys, all of them declared, that gives every
    parameter without a default. *)
Definition call_with (fname : pystr) (decls : list (pystr * option PyVal))
  (body : list (pystr * PyVal) -> IBM PyVal) (params : PyVal) : IBM PyVal :=
  match params with
  | VDict d =>
      match keywords d with
      | Some kw =>
          if forallb (fun kv => existsb (pystr_eqb (fst kv)) (map fst decls))
               kw
          then match bind_params decls kw with
               | Some env => body env
               | None => raise (Interp (BadCall fname params))
               end
          else raise (Interp (BadCall fname params))
      | None => raise (Interp (BadCall fname params))
      end
  | _ => raise (Interp (BadCall fname params))
  end.

Definition contract_decls : list (pystr * option PyVal) :=
  [(py "symbol", None);
   (py "secType", Some (VStr (py "STK")));
   (py "exchange", Some (VStr (py "SMART")));
   (py "currency", Some (VStr (py "USD")))].

Definition order_decls : list (pystr * option PyVal) :=
  [(py "symbol", None); (py "action", None);
   (py "quantity", None); (py "limitPrice", None);
   (py "secType", Some (VStr (py "STK")));
   (py "exchange", Some (VStr (py "SMART")));
   (py "currency", Some (VStr (py "USD")))].

Definition account_decls : list (pystr * option PyVal) :=
  [(py "account", Some (VStr []))].

(** ib.py: TOOLS, in registration order. *)
Definition TOOLS : list (pystr * (PyVal -> IBM PyVal)) :=
  [(py "connect", call_with (py "connect") [] (fun _ => connect));
   (py "disconnect", call_with (py "disconnect") [] (fun _ => disconnect));
   (py "qualifyContracts",
    call_with (py "qualifyContracts") contract_decls
      (fun a => qualifyContracts (arg a (py "symbol")) (arg a (py "secType"))
                  (arg a (py "exchange")) (arg a (py "currency"))));
   (py "reqMktData",
    call_with (py "reqMktData") contract_decls
      (fun a => reqMktData (arg a (py "symbol")) (arg a (py "secType"))
                  (arg a (py "exchange")) (arg a (py "currency"))));
   (py "placeOrder",
    call_with (py "placeOrder") order_decls
      (fun a => placeOrder (arg a (py "symbol")) (arg a (py "action"))
                  (arg a (py "quantity")) (arg a (py "limitPrice"))
                  (arg a (py "secType")) (arg a (py "exchange"))
                  (arg a (py "currency"))));
   (py "positions",
    call_with (py "positions") account_decls
      (fun a => positions (arg a (py "account"))));
   (py "accountValues",
    call_with (py "accountValues") account_decls
      (fun a => accountValues (arg a (py "account"))))].

(* ------------------------------------------------------------------ *)
(** *** app.py: call_openai *)

Definition system_prompt (connection_status : pystr)
  (tool_schemas : list pystr) : pystr :=
  py "You are a financial assistant that executes trading commands and retrieves market data. "
  ++ py "The connection status to IB TWS is currently "
  ++ connection_status ++ py ". "
  ++ py "If the connection is not established (i.e., connection status is 'not connected'), include a 'connect' tool call as the first action in the sequence, "
  ++ py "followed by the tool call for the user's request. "
  ++ py "If the connection is already established (i.e., connection status is 'already connected'), only include the tool call for the user's request. "
  ++ py "Use only the following tools with their exact parameters as defined in their schemas (no extra fields): "
  ++ join (py ", ") tool_schemas
  ++ py ". "
  ++ py "Respond with a JSON object containing 'actions' (a list of tool calls). Each tool call in the list must have 'name' (tool name) and 'parameters'. "
  ++ py "Execute all actions in the list sequentially. "
  ++ py "Examples: "
  ++ py "- If user says 'What" ++ [8217%N]
  ++ py "s the current price of AAPL?' and connection is not established: "
  ++ py "{'actions': [{'name': 'connect', 'parameters': {}}, {'name': 'reqMktData', 'parameters': {'symbol': 'AAPL', 'secType': 'STK', 'exchange': 'SMART', 'currency': 'USD'}}]} "
  ++ py "- If connection is already established: "
  ++ py "{'actions': [{'name': 'reqMktData', 'parameters': {'symbol': 'AAPL', 'secType': 'STK', 'exchange': 'SMART', 'currency': 'USD'}}]} "
  ++ py "- If user says 'Disconnect': "
  ++ py "{'actions': [{'name': 'disconnect', 'parameters': {}}]}".

(** The loop over the streamed chunks: each [content] (or the empty
    string) is collected and echoed. *)
Fixpoint receive (chunks : list (option pystr)) (collected : list pystr)
  : M (list pystr) :=
  match chunks with
  | [] => ret collected
  | chunk :: rest =>
      let chunk_message := match chunk with Some s => s | None => [] end in
      print (PrintChunk chunk_message) ;;
      receive rest (collected ++ [chunk_message])
  end.

(** The last three statements of [call_openai], on the stripped text. *)
Definition normalize_booleans (full_response : pystr) : pystr :=
  let full_response := re_sub (py "false") (py "False") full_response in
  let full_response := re_sub (py "true") (py "True") full_response in
  full_response.

Definition call_openai (prompt : pystr) (connected : bool) : M pystr :=
  let connection_status :=
    if connected then py "already connected" else py "not connected" in
  let tool_schemas :=
    map (fun nf => get_tool_schema (fst nf) (snd nf)) (inspect_TOOLS X) in
  response <- lift (chat_completions_create X
                      (system_prompt connection_status tool_schemas)
                      prompt) ;;
  collected_messages <- receive (deltas response) [] ;;
  match broken response with Some e => raise e | None => ret tt end ;;
  print PrintNewline ;;
  let full_response := strip (join [] collected_messages) in
  match full_response with
  | [] => raise (Raised (py "ValueError")
                   (py "Empty response from streaming LLM"))
  | _ => ret (normalize_booleans full_response)
  end.

(* ------------------------------------------------------------------ *)
(** *** app.py: execute_tool and main

    [TOOLS] is the registry imported from ib.py; the functions are written
    over any registry and [app_main] runs them with ib.py's. *)

Section Dispatch.

Variable registry : list (pystr * (PyVal -> IBM PyVal)).

(** [TOOLS[tool_name]], when [tool_name in TOOLS]: only a [str] equals a
    key of the registry. *)
Fixpoint registered (tools : list (pystr * (PyVal -> IBM PyVal)))
  (tool_name : PyVal) : option (pystr * (PyVal -> IBM PyVal)) :=
  match tools with
  | [] => None
  | (name, tool) :: tools' =>
      if eq_str tool_name name then Some (name, tool)
      else registered tools' tool_name
  end.

Definition execute_tool (tool_name params : PyVal) : M PyVal :=
  match tool_name with
  | VList _ | VDict _ => raise (Interp (Unhashable tool_name))
  | _ =>
      match registered registry tool_name with
      | None =>
          ret (VDict [(VStr (py "result"), VStr (py "failed"));
                      (VStr (py "message"),
                       VStr (py "Unknown tool: " ++ py_str tool_name))])
      | Some (name, tool) =>
          try_except
            (print (PrintActivate name params) ;;
             result <- in_ib (tool params) ;;
             ret result)
            (fun e =>
               ret (VDict [(VStr (py "result"), VStr (py "failed"));
                           (VStr (py "message"),
                            VStr (py "Error executing " ++ name ++ py ": "
                                    ++ str_exn e))]))
      end
  end.

(** One iteration of [for action in actions]. *)
Definition run_action (action : PyVal) : M unit :=
  tool_name <- lift (py_get action (py "name") VNone) ;;
  params <- lift (py_get action (py "parameters") (VDict [])) ;;
  tool_result <- execute_tool tool_name params ;;
  print (PrintToolResult tool_name tool_result) ;;
  if eq_str tool_name (py "connect")
  then r <- lift (py_getitem tool_result (py "result")) ;;
       if eq_str r (py "success") then set_is_connected true else ret tt
  else if eq_str tool_name (py "disconnect")
  then r <- lift (py_getitem tool_result (py "result")) ;;
       if eq_str r (py "success") then set_is_connected false else ret tt
  else ret tt.

Fixpoint run_actions (actions : list PyVal) : M unit :=
  match actions with
  | [] => ret tt
  | action :: rest => run_action action ;; run_actions rest
  end.

(** The body of the [try] of [main]. *)
Definition process_response (ai_response : pystr) : M unit :=
  response_data <- lift (py_eval X ai_response) ;;
  actions <- lift (py_get response_data (py "actions") (VList [])) ;;
  if negb (truthy actions)
  then print PrintNoActions
  else items <- lift (py_iter actions) ;; run_actions items.

(** [user_input.lower() == 'exit']: the strings whose lower case is
    [exit] are the four letters in either case. *)
Definition is_exit (user_input : pystr) : bool :=
  match user_input with
  | [e; x; i; t] =>
      ((e =? 101) || (e =? 69)) && ((x =? 120) || (x =? 88))
      && ((i =? 105) || (i =? 73)) && ((t =? 116) || (t =? 84))
  | _ => false
  end%N.

(** One turn: the body of [while True] after the exit test. *)
Definition turn (user_input : pystr) : M unit :=
  connected <- get_is_connected ;;
  ai_response <- call_openai user_input connected ;;
  try_except (process_response ai_response)
    (fun e => print (PrintError e)).

(** The loop of [main] over the lines the operator enters; at the end of
    the input, [input] raises. *)
Fixpoint main_loop (inputs : list pystr) : M unit :=
  match inputs with
  | [] => print InputPrompt ;; raise (Interp EndOfInput)
  | user_input :: rest =>
      print InputPrompt ;;
      if is_exit user_input then ret tt
      else turn user_input ;; main_loop rest
  end.

Definition main (inputs : list pystr) : M unit :=
  set_is_connected false ;;
  print PrintGreeting ;;
  main_loop inputs.

End Dispatch.

Definition app_main (inputs : list pystr) : M unit := main TOOLS inputs.

End Program.

Arguments ret {S A} a _ /.
Arguments raise {S A} e _ /.
Arguments lift {S A} r _ /.

(* ================================================================== *)
(** ** What the claims speak of *)

(** A word: a non-empty run of characters that are not whitespace. *)
Definition is_word (w : pystr) : Prop :=
  w <> [] /\ forallb (fun c => negb (isspace c)) w = true.

(** [after_word] tells whether the previous character belongs to a word;
    a whitespace character is accepted only if it is one space that
    follows a word and is followed by a word. *)
Fixpoint spaced_from (after_word : bool) (s : pystr) : bool :=
  match s with
  | [] => after_word
  | c :: s' =>
      if isspace c
      then after_word && (c =? SPACE)%N && spaced_from false s'
      else spaced_from true s'
  end.

(** Whitespace-normalized text: words separated by single spaces, with no
    other whitespace anywhere. *)
Definition whitespace_normalized (s : pystr) : bool :=
  match s with
  | [] => true
  | _ => spaced_from false s
  end.

(** The descriptor of one parameter, in the words of the specification:
    [<p> (<type>[, default '<default>'])]. *)
Definition descriptor (p : ParamInfo) : pystr :=
  param_name p ++ py " ("
    ++ match annotation p with Some t => t | None => py "unknown" end
    ++ match default p with
       | Some d => py ", default '" ++ d ++ py "'"
       | None => []
       end
    ++ py ")".

(** The parameter list of a rendering, in the words of the
    specification. *)
Definition parameter_list (ps : list ParamInfo) : pystr :=
  match ps with
  | [] => py "No parameters"
  | _ => join (py ", ") (map descriptor ps)
  end.

(** The text accumulated from a stream: its fragments in arrival order. *)
Definition accumulated (chunks : list (option pystr)) : pystr :=
  List.concat
    (map (fun c => match c with Some s => s | None => [] end) chunks).

(** The character at position [i] of [text] once every occurrence of
    [false] reads [False] and every occurrence of [true] reads [True]:
    only the first letter of an occurrence changes. *)
Definition capitalised_at (text : pystr) (i : nat) (x : N) : N :=
  if startswith (py "false") (skipn i text) then 70%N
  else if startswith (py "true") (skipn i text) then 84%N
  else x.

(** [s] with the first character of every occurrence of [pat] replaced
    by [c]. *)
Fixpoint capitalise (pat : pystr) (c : N) (s : pystr) : pystr :=
  match s with
  | [] => []
  | x :: s' => (if startswith pat s then c else x) :: capitalise pat c s'
  end.

(** The Outcome of an action that names no registered tool. *)
Definition unknown_tool (name : pystr) : PyVal :=
  VDict [(VStr (py "result"), VStr (py "failed"));
         (VStr (py "message"), VStr (py "Unknown tool: " ++ name))].

(** An Outcome is a success when its [result] is the string [success]. *)
Definition is_success (outcome : PyVal) : bool :=
  match py_getitem outcome (py "result") with
  | Ok r => eq_str r (py "success")
  | Raise _ => false
  end.

(** Whether the global [ib] holds a connected session. *)
Definition session_connected {H} (X : Externals H) (o : option H) : bool :=
  match o with
  | Some h => IB_isConnected X h
  | None => false
  end.

Definition log {H} (ev : Event) (w : World H) : World H :=
  {| is_connected := is_connected w; ib := ib w;
     console := ev :: console w |}.

(** The description a schema ends with: the docstring, or the stock
    sentence when there is none. *)
Definition description_source (f : Signature) : pystr :=
  match getdoc f with
  | None | Some [] => py "No description available."
  | Some d => d
  end.

(** The system prompt [call_openai] sends. *)
Definition sent_prompt {H} (X : Externals H) (connected : bool) : pystr :=
  system_prompt (if connected then py "already connected"
                 else py "not connected")
    (map (fun nf => get_tool_schema (fst nf) (snd nf)) (inspect_TOOLS X)).

(** The console once the fragments of a stream are echoed. *)
Definition echo {H} (chunks : list (option pystr)) (w : World H)
  : World H :=
  fold_left
    (fun w c => log (PrintChunk match c with Some s => s | None => [] end) w)
    chunks w.

(** The Outcome [execute_tool] makes of an error of a capability. *)
Definition capability_error {H} (X : Externals H) (name : pystr)
  (e : PyExn) : PyVal :=
  VDict [(VStr (py "result"), VStr (py "failed"));
         (VStr (py "message"),
          VStr (py "Error executing " ++ name ++ py ": " ++ str_exn X e))].


(** The statements of [run_action] after [execute_tool] has returned. *)
Definition after_tool {H} (tool_name tool_result : PyVal) : M H unit :=
  bind (print (PrintToolResult tool_name tool_result))
    (fun _ =>
       if eq_str tool_name (py "connect")
       then bind (lift (py_getitem tool_result (py "result")))
              (fun r => if eq_str r (py "success")
                        then set_is_connected true else ret tt)
       else if eq_str tool_name (py "disconnect")
       then bind (lift (py_getitem tool_result (py "result")))
              (fun r => if eq_str r (py "success")
                        then set_is_connected false else ret tt)
       else ret tt).

(* ------------------------------------------------------------------ *)
(** *** A small world to run the program in *)

Module Demo.

(** An [IB] object is connected or not; [connect] and [disconnect] always
    succeed and every other request returns an empty list. *)
Definition ib_method (name : pystr) (args : list PyVal) (h : bool)
  : result PyVal * bool :=
  if pystr_eqb name (py "connect") then (Ok VNone, true)
  else if pystr_eqb name (py "disconnect") then (Ok VNone, false)
  else (Ok (VList []), h).

Definition empty_plan : PyVal := VDict [].

Definition nameless_plan : PyVal :=
  VDict [(VStr (py "actions"),
          VList [VDict [(VStr (py "parameters"), VDict [])]])].

Definition connect_plan : PyVal :=
  VDict [(VStr (py "actions"),
          VList [VDict [(VStr (py "name"), VStr (py "connect"));
                        (VStr (py "parameters"), VDict [])]])].

(** [eval] on the three literals the examples use. *)
Definition eval (text : pystr) : result PyVal :=
  if pystr_eqb text (py "{}") then Ok empty_plan
  else if pystr_eqb text (py "{'actions': [{'parameters': {}}]}")
  then Ok nameless_plan
  else if pystr_eqb text
            (py "{'actions': [{'name': 'connect', 'parameters': {}}]}")
  then Ok connect_plan
  else Raise (Raised (py "SyntaxError") (py "invalid syntax")).

(** The completion service streams the operator's words back, in one
    fragment. *)
Definition X : Externals bool := {|
  py_eval := eval;
  py_repr := fun _ => py "...";
  interp_text := fun _ => py "...";
  inspect_TOOLS := [];
  chat_completions_create :=
    fun _ prompt => Ok {| deltas := [Some prompt]; broken := None |};
  IB_HOST := py "127.0.0.1";
  IB_PORT := 7497;
  IB_CLIENT := 1;
  IB := Ok false;
  IB_isConnected := fun h => h;
  IB_method := ib_method;
  ib_insync_new := fun _ args => Ok (VList args);
  py_getattr := fun _ _ _ => Ok VNone;
  py_vars := fun _ obj => Ok obj
|}.

(** The same world with a completion service that streams nothing. *)
Definition X_silent : Externals bool := {|
  py_eval := eval;
  py_repr := fun _ => py "...";
  interp_text := fun _ => py "...";
  inspect_TOOLS := [];
  chat_completions_create :=
    fun _ _ => Ok {| deltas := []; broken := None |};
  IB_HOST := py "127.0.0.1";
  IB_PORT := 7497;
  IB_CLIENT := 1;
  IB := Ok false;
  IB_isConnected := fun h => h;
  IB_method := ib_method;
  ib_insync_new := fun _ args => Ok (VList args);
  py_getattr := fun _ _ _ => Ok VNone;
  py_vars := fun _ obj => Ok obj
|}.

Definition w0 : World bool :=
  {| is_connected := false; ib := None; console := [] |}.

Definition action (name : pystr) (params : list (PyVal * PyVal))
  : list (PyVal * PyVal) :=
  [(VStr (py "name"), VStr name); (VStr (py "parameters"), VDict params)].

End Demo.

(** A world in which ib_insync refuses: [ib.connect] and
    [ib.qualifyContracts] raise. *)
Module Faulty.

Definition ib_method (name : pystr) (args : list PyVal) (h : bool)
  : result PyVal * bool :=
  if pystr_eqb name (py "connect")
  then (Raise (Raised (py "ConnectionRefusedError") (py "refused")), h)
  else if pystr_eqb name (py "qualifyContracts")
  then (Raise (Raised (py "TimeoutError") (py "timed out")), h)
  else (Ok (VList []), h).

(** [eval] knows one more literal, the plan without actions. *)
Definition eval (text : pystr) : result PyVal :=
  if pystr_eqb text (py "{'actions': []}")
  then Ok (VDict [(VStr (py "actions"), VList [])])
  else Demo.eval text.

Definition X : Externals bool := {|
  py_eval := eval;
  py_repr := fun _ => py "...";
  interp_text := fun _ => py "...";
  inspect_TOOLS := [];
  chat_completions_create :=
    fun _ prompt => Ok {| deltas := [Some prompt]; broken := None |};
  IB_HOST := py "127.0.0.1";
  IB_PORT := 7497;
  IB_CLIENT := 1;
  IB := Ok false;
  IB_isConnected := fun h => h;
  IB_method := ib_method;
  ib_insync_new := fun _ args => Ok (VList args);
  py_getattr := fun _ _ _ => Ok VNone;
  py_vars := fun _ obj => Ok obj
|}.

(** A world whose session is connected. *)
Definition w1 : World bool :=
  {| is_connected := true; ib := Some true; console := [] |}.

End Faulty.

Unset Implicit Arguments.

(* ================================================================== *)
(** ** Words and whitespace *)

Section Words.

Local Abbreviation nonspace := (fun c : N => negb (isspace c)).


Lemma split_from_words (s : pystr) :
  forall cur, forallb nonspace cur = true ->
              Forall is_word (split_from cur s).
Proof.
  induction s as [|c s IH]; intros cur Hcur; cbn.
  - destruct cur; constructor; [split; [discriminate | exact Hcur] | constructor].
  - destruct (isspace c) eqn:Hc.
    + destruct cur as [|x cur].
      * now apply IH.
      * constructor; [split; [discriminate | exact Hcur] | now apply IH].
    + apply IH. rewrite forallb_app, Hcur. cbn. now rewrite Hc.
Qed.

Lemma split_words (s : pystr) : Forall is_word (split s).
Proof. now apply split_from_words. Qed.






End Words.

(** The loop of [get_tool_schema] appends one descriptor per parameter. *)
Lemma schema_loop (ps : list ParamInfo) :
  forall acc, fold_left schema_step ps acc = acc ++ map descriptor ps.
Proof.
  induction ps as [|p ps IH]; intros acc; cbn.
  - now rewrite app_nil_r.
  - rewrite IH. unfold schema_step at 1. now rewrite <- app_assoc.
Qed.


(* ================================================================== *)
(** ** Substitution of the boolean tokens *)

Lemma startswith_split (pat s : pystr) :
  startswith pat s = true -> s = pat ++ skipn (List.length pat) s.
Proof.
  revert s. induction pat as [|p pat IH]; intros s Hs; [reflexivity|].
  destruct s as [|c s]; [discriminate|]. cbn in Hs.
  apply andb_true_iff in Hs as [Hpc Hs]. apply N.eqb_eq in Hpc. subst c.
  cbn. f_equal. now apply IH.
Qed.

Lemma re_sub_from_skip (pat rep a : pystr) :
  forall rest,
    re_sub_from (List.length a) pat rep (a ++ rest)
    = re_sub_from 0 pat rep rest.
Proof. induction a as [|x a IH]; intros rest; [reflexivity | apply IH]. Qed.

(** No occurrence of a pattern starts inside a stretch of characters that
    differ from its first one. *)
Lemma capitalise_skip (h : N) (tl : pystr) (c : N) (a : pystr) :
  ~ In h a ->
  forall rest,
    capitalise (h :: tl) c (a ++ rest) = a ++ capitalise (h :: tl) c rest.
Proof.
  induction a as [|x a IH]; intros Hin rest; [reflexivity|].
  cbn [app capitalise startswith].
  destruct (N.eqb_spec h x) as [->|_]; [exfalso; apply Hin; now left|].
  cbn [andb]. f_equal. apply IH. intros Hh. apply Hin. now right.
Qed.

(** [re.sub] of a pattern by itself with another first letter, when that
    letter does not occur again in the pattern: every occurrence is a
    match, and only its first letter changes. *)
Lemma re_sub_capitalise (h : N) (tl : pystr) (c : N) :
  ~ In h tl ->
  forall s, re_sub (h :: tl) (c :: tl) s = capitalise (h :: tl) c s.
Proof.
  intros Hin s. unfold re_sub.
  remember (List.length s) as n eqn:Hn.
  assert (Hle : List.length s <= n) by lia. clear Hn.
  revert s Hle. induction n as [|n IH]; intros s Hle.
  - destruct s; [reflexivity | cbn in Hle; lia].
  - destruct s as [|x s]; [reflexivity|].
    cbn [re_sub_from capitalise].
    destruct (startswith (h :: tl) (x :: s)) eqn:Hm.
    + pose proof (startswith_split _ _ Hm) as Hs.
      cbn [List.length skipn app] in Hs. injection Hs as -> Hs.
      rewrite Hs.
      replace (List.length (h :: tl) - 1) with (List.length tl)
        by (cbn [List.length]; lia).
      rewrite re_sub_from_skip, capitalise_skip by exact Hin.
      cbn [app]. do 2 f_equal. apply IH.
      rewrite Hs in Hle. cbn in Hle. rewrite length_app in Hle. lia.
    + f_equal. apply IH. cbn in Hle. lia.
Qed.

(** Capitalising the occurrences of one pattern neither creates nor
    destroys an occurrence of a pattern that contains neither letter. *)
Lemma startswith_capitalise (h : N) (tl : pystr) (c : N) (pat : pystr) :
  ~ In h pat -> ~ In c pat ->
  forall s, startswith pat (capitalise (h :: tl) c s) = startswith pat s.
Proof.
  induction pat as [|p pat IH]; intros Hh Hc s; [reflexivity|].
  destruct s as [|x s]; [reflexivity|].
  cbn [capitalise].
  assert (Hp : (p =? (if startswith (h :: tl) (x :: s) then c else x))%N
               = (p =? x)%N).
  { destruct (startswith (h :: tl) (x :: s)) eqn:Hm; [|reflexivity].
    cbn [startswith] in Hm. apply andb_true_iff in Hm as [Hx _].
    apply N.eqb_eq in Hx. subst x.
    destruct (N.eqb_spec p c) as [->|_]; [exfalso; apply Hc; now left|].
    destruct (N.eqb_spec p h) as [->|_]; [exfalso; apply Hh; now left|].
    reflexivity. }
  change (startswith (p :: pat) (?y :: ?t))
    with ((p =? y)%N && startswith pat t).
  rewrite Hp. f_equal.
  apply IH; intros Hi; [apply Hh | apply Hc]; now right.
Qed.

Lemma capitalise_length (pat : pystr) (c : N) (s : pystr) :
  List.length (capitalise pat c s) = List.length s.
Proof. induction s as [|x s IH]; cbn; [reflexivity | now rewrite IH]. Qed.

Lemma capitalise_nth (pat : pystr) (c : N) (s : pystr) :
  forall i x,
    nth_error s i = Some x ->
    nth_error (capitalise pat c s) i
    = Some (if startswith pat (skipn i s) then c else x).
Proof.
  induction s as [|y s IH]; intros [|i] x Hx; try discriminate.
  - cbn in Hx. injection Hx as ->. reflexivity.
  - cbn [nth_error skipn capitalise] in *. now apply IH.
Qed.

Lemma skipn_capitalise (pat : pystr) (c : N) (s : pystr) :
  forall i, skipn i (capitalise pat c s) = capitalise pat c (skipn i s).
Proof.
  induction s as [|y s IH]; intros [|i]; try reflexivity. cbn. apply IH.
Qed.

(** The two substitutions of [call_openai], position by position. *)
Lemma normalize_booleans_nth (text : pystr) :
  List.length (normalize_booleans text) = List.length text
  /\ forall i x,
       nth_error text i = Some x ->
       nth_error (normalize_booleans text) i
       = Some (capitalised_at text i x).
Proof.
  unfold normalize_booleans.
  change (py "false") with (102%N :: py "alse").
  change (py "False") with (70%N :: py "alse").
  change (py "true") with (116%N :: py "rue").
  change (py "True") with (84%N :: py "rue").
  assert (Hf : ~ In 102%N (py "alse")).
  { cbn. intros [H|[H|[H|[H|[]]]]]; discriminate. }
  assert (Ht : ~ In 116%N (py "rue")).
  { cbn. intros [H|[H|[H|[]]]]; discriminate. }
  rewrite 2 re_sub_capitalise by assumption.
  split; [now rewrite !capitalise_length|].
  intros i x Hx. unfold capitalised_at.
  change (py "false") with (102%N :: py "alse").
  change (py "true") with (116%N :: py "rue").
  erewrite capitalise_nth
    by (erewrite capitalise_nth by exact Hx; reflexivity).
  rewrite skipn_capitalise, startswith_capitalise.
  - destruct (startswith (102%N :: py "alse") (skipn i text)) eqn:Hm;
      [|reflexivity].
    destruct (startswith (116%N :: py "rue") (skipn i text)) eqn:Hm';
      [|reflexivity].
    exfalso. destruct (skipn i text) as [|y t]; [discriminate|].
    cbn [startswith] in Hm, Hm'.
    apply andb_true_iff in Hm as [Hm _], Hm' as [Hm' _].
    apply N.eqb_eq in Hm, Hm'. congruence.
  - cbn. intros [H|[H|[H|[H|[]]]]]; discriminate.
  - cbn. intros [H|[H|[H|[H|[]]]]]; discriminate.
Qed.

(* ================================================================== *)
(** ** The completion client *)

Lemma join_empty (l : list pystr) : join [] l = List.concat l.
Proof.
  induction l as [|w [|w' l] IH]; [reflexivity | |].
  - cbn. now rewrite app_nil_r.
  - change (join [] (w :: w' :: l)) with (w ++ join [] (w' :: l)).
    now rewrite IH.
Qed.

Section Client.

Variable H : Type.
Variable X : Externals H.

Lemma receive_collects (chunks : list (option pystr)) :
  forall (collected : list pystr) (w : World H),
    receive chunks collected w
    = (Ok (collected
             ++ map (fun c => match c with Some s => s | None => [] end)
                  chunks),
       echo chunks w).
Proof.
  induction chunks as [|c chunks IH]; intros collected w; cbn [receive].
  - cbn. now rewrite app_nil_r.
  - unfold bind, print. rewrite IH, <- app_assoc. reflexivity.
Qed.

(** What [call_openai] does with a stream that ends normally. *)
Lemma call_openai_run (prompt : pystr) (connected : bool) (w : World H)
  (response : Stream) :
  chat_completions_create X (sent_prompt X connected) prompt = Ok response ->
  broken response = None ->
  call_openai X prompt connected w
  = match strip (accumulated (deltas response)) with
    | [] => (Raise (Raised (py "ValueError")
                      (py "Empty response from streaming LLM")),
             log PrintNewline (echo (deltas response) w))
    | c :: text' => (Ok (normalize_booleans (c :: text')),
                     log PrintNewline (echo (deltas response) w))
    end.
Proof.
  intros Hcreate Hbroken. unfold call_openai, bind, sent_prompt in *.
  cbn [lift]. rewrite Hcreate, receive_collects, Hbroken. cbn [ret print].
  cbn [app]. rewrite join_empty. fold (accumulated (deltas response)).
  now destruct (strip (accumulated (deltas response))).
Qed.

End Client.

(** C8, as amended: when the accumulated text is not empty once the
    whitespace around it is trimmed, [call_openai] returns the trimmed
    text in which the first letter of every occurrence of [false] is [F]
    and of every occurrence of [true] is [T]; its length and all its other
    characters are those of the trimmed text. *)
Theorem call_openai_capitalises_booleans (H : Type) (X : Externals H)
  (prompt : pystr) (connected : bool) (w : World H) (response : Stream) :
  chat_completions_create X (sent_prompt X connected) prompt = Ok response ->
  broken response = None ->
  strip (accumulated (deltas response)) <> [] ->
  exists full_response,
    fst (call_openai X prompt connected w) = Ok full_response
    /\ List.length full_response
       = List.length (strip (accumulated (deltas response)))
    /\ forall i x,
         nth_error (strip (accumulated (deltas response))) i = Some x ->
         nth_error full_response i
         = Some (capitalised_at (strip (accumulated (deltas response))) i x).
Proof.
  intros Hcreate Hbroken Htext.
  rewrite (call_openai_run H X prompt connected w response Hcreate Hbroken).
  destruct (strip (accumulated (deltas response))) as [|c text'] eqn:E;
    [congruence|].
  exists (normalize_booleans (c :: text')).
  split; [reflexivity | apply normalize_booleans_nth].
Qed.

Lemma call_openai_capitalises_booleans_witness :
  exists full_response,
    fst (call_openai Demo.X (py " true, falsetto ") false Demo.w0)
    = Ok full_response
    /\ List.length full_response = 14
    /\ forall i x,
         nth_error (py "true, falsetto") i = Some x ->
         nth_error full_response i
         = Some (capitalised_at (py "true, falsetto") i x).
Proof.
  apply (call_openai_capitalises_booleans bool Demo.X
           (py " true, falsetto ") false Demo.w0
           {| deltas := [Some (py " true, falsetto ")]; broken := None |}).
  - reflexivity.
  - reflexivity.
  - vm_compute. discriminate.
Defined.

(** C8, as stated, fails: the text accumulated from the fragment
    [" true"] is not empty, and the client returns [True], one character
    shorter: the leading space is gone. *)
Lemma call_openai_trims_counterexample :
  accumulated [Some (py " true")] <> []
  /\ fst (call_openai Demo.X (py " true") false Demo.w0) = Ok (py "True")
  /\ List.length (py "True")
     <> List.length (accumulated [Some (py " true")]).
Proof. vm_compute. repeat split; discriminate. Qed.

(* ================================================================== *)
(** ** Dispatch *)

Lemma pystr_eqb_eq (a b : pystr) : pystr_eqb a b = true <-> a = b.
Proof.
  unfold pystr_eqb. destruct (list_eq_dec N.eq_dec a b); split;
    congruence.
Qed.

Lemma eq_str_eq (v : PyVal) (lit : pystr) :
  eq_str v lit = true <-> v = VStr lit.
Proof.
  destruct v; cbn; try (split; [discriminate | congruence]).
  rewrite pystr_eqb_eq. split; congruence.
Qed.

Section Dispatching.

Variable H : Type.
Variable X : Externals H.
Variable registry : list (pystr * (PyVal -> IBM H PyVal)).

(** Only a string names a registered tool, and the registry answers with
    that very name. *)
Lemma registered_name (tools : list (pystr * (PyVal -> IBM H PyVal)))
  (tool_name : PyVal) (name : pystr) (tool : PyVal -> IBM H PyVal) :
  registered tools tool_name = Some (name, tool) -> tool_name = VStr name.
Proof.
  induction tools as [|[n t] tools IH]; cbn; [discriminate|].
  destruct (eq_str tool_name n) eqn:E; [|exact IH].
  intros [= <- _]. now apply eq_str_eq.
Qed.

Lemma registered_none (tools : list (pystr * (PyVal -> IBM H PyVal))) :
  registered tools VNone = None.
Proof. induction tools as [|[n t] tools IH]; [reflexivity | exact IH]. Qed.

(** [execute_tool] on a name that is not registered: nothing is called
    and nothing is written. *)
Lemma execute_tool_unknown (tool_name params : PyVal) (w : World H) :
  registered registry tool_name = None ->
  match tool_name with VList _ | VDict _ => False | _ => True end ->
  execute_tool X registry tool_name params w
  = (Ok (unknown_tool (py_str X tool_name)), w).
Proof.
  intros Hreg Hkey. unfold execute_tool. rewrite Hreg.
  destruct tool_name; try reflexivity; contradiction.
Qed.

(** [execute_tool] on a registered name: the call is announced, the tool
    runs on [ib], and its error, if any, becomes an Outcome. *)
Lemma execute_tool_registered (name : pystr) (tool : PyVal -> IBM H PyVal)
  (params : PyVal) (w : World H) :
  registered registry (VStr name) = Some (name, tool) ->
  execute_tool X registry (VStr name) params w
  = (Ok match fst (tool params (ib w)) with
        | Ok outcome => outcome
        | Raise e => capability_error X name e
        end,
     {| is_connected := is_connected w;
        ib := snd (tool params (ib w));
        console := PrintActivate name params :: console w |}).
Proof.
  intros Hreg. unfold execute_tool. rewrite Hreg.
  unfold try_except, bind, print, in_ib. cbn [ib is_connected console].
  destruct (tool params (ib w)) as [[outcome|e] o]; reflexivity.
Qed.

(** [execute_tool] leaves [is_connected] alone, whatever it is given. *)
Lemma execute_tool_is_connected (tool_name params : PyVal) (w : World H) :
  is_connected (snd (execute_tool X registry tool_name params w))
  = is_connected w.
Proof.
  destruct (registered registry tool_name) as [[name tool]|] eqn:Hreg.
  - pose proof (registered_name _ _ _ _ Hreg) as ->.
    now rewrite (execute_tool_registered _ _ _ _ Hreg).
  - unfold execute_tool. rewrite Hreg. now destruct tool_name.
Qed.

Lemma run_action_steps (action tool_name params : PyVal) (w : World H) :
  py_get action (py "name") VNone = Ok tool_name ->
  py_get action (py "parameters") (VDict []) = Ok params ->
  run_action X registry action w
  = bind (execute_tool X registry tool_name params)
      (fun tool_result => after_tool tool_name tool_result) w.
Proof.
  intros Hname Hparams. unfold run_action, bind at 1 2.
  cbn [lift]. rewrite Hname, Hparams. reflexivity.
Qed.

Lemma failed_outcome_is_no_success (message : PyVal) :
  is_success (VDict [(VStr (py "result"), VStr (py "failed"));
                     (VStr (py "message"), message)]) = false.
Proof. reflexivity. Qed.

(** After a failed Outcome the only thing that happens is the report. *)
Lemma after_failed_tool (tool_name message : PyVal) (w : World H) :
  let outcome := VDict [(VStr (py "result"), VStr (py "failed"));
                        (VStr (py "message"), message)] in
  after_tool tool_name outcome w
  = (Ok tt, log (PrintToolResult tool_name outcome) w).
Proof.
  cbv zeta. unfold after_tool, bind, print.
  destruct (eq_str tool_name (py "connect"));
    [reflexivity | destruct (eq_str tool_name (py "disconnect"))];
    reflexivity.
Qed.

End Dispatching.

(* ================================================================== *)
(** ** The plan of a turn *)

Section Plans.

Variable H : Type.
Variable X : Externals H.
Variable registry : list (pystr * (PyVal -> IBM H PyVal)).

(** C1, as amended: a response that evaluates to an object without an
    [actions] key is an empty plan: the turn reports that no actions were
    returned, raises nothing, calls no tool and changes no state. *)
Theorem missing_actions_is_empty_plan (ai_response : pystr)
  (d : list (PyVal * PyVal)) (w : World H) :
  py_eval X ai_response = Ok (VDict d) ->
  dict_lookup d (py "actions") = None ->
  process_response X registry ai_response w
  = (Ok tt, log PrintNoActions w).
Proof.
  intros Heval Hkey. unfold process_response, bind. cbn [lift].
  rewrite Heval. cbn [py_get]. rewrite Hkey. reflexivity.
Qed.

(** C3, as amended: an object of the [actions] list that has no [name]
    key is dispatched under the name [None]: its Outcome is the failure
    [Unknown tool: None], no tool is called for it, no state changes, and
    the actions after it are executed. *)
Theorem nameless_action_is_unknown_tool (d : list (PyVal * PyVal))
  (rest : list PyVal) (w : World H) :
  dict_lookup d (py "name") = None ->
  run_actions X registry (VDict d :: rest) w
  = run_actions X registry rest
      (log (PrintToolResult VNone (unknown_tool (py "None"))) w).
Proof.
  intros Hname. cbn [run_actions]. unfold bind at 1.
  assert (Hparams : exists params,
             py_get (VDict d) (py "parameters") (VDict []) = Ok params).
  { cbn [py_get]. destruct (dict_lookup d (py "parameters")); eauto. }
  destruct Hparams as [params Hparams].
  rewrite (run_action_steps H X registry (VDict d) VNone params w);
    [| cbn [py_get]; now rewrite Hname | exact Hparams].
  unfold bind at 1.
  rewrite (execute_tool_unknown H X registry VNone params w);
    [| apply registered_none | exact I].
  cbn [py_str]. unfold unknown_tool. now rewrite after_failed_tool.
Qed.

(** C4: once [execute_tool] has returned the Outcome of an action,
    [is_connected] is true if the name is [connect] and the Outcome a
    success, false if the name is [disconnect] and the Outcome a success,
    and what it was before the action in every other case. *)
Theorem connection_state_rule (action tool_name params outcome : PyVal)
  (w w1 : World H) :
  py_get action (py "name") VNone = Ok tool_name ->
  py_get action (py "parameters") (VDict []) = Ok params ->
  execute_tool X registry tool_name params w = (Ok outcome, w1) ->
  is_connected (snd (run_action X registry action w))
  = if eq_str tool_name (py "connect") && is_success outcome then true
    else if eq_str tool_name (py "disconnect") && is_success outcome
         then false
         else is_connected w.
Proof.
  intros Hname Hparams Hexec.
  rewrite (run_action_steps H X registry action tool_name params w Hname
             Hparams).
  pose proof (execute_tool_is_connected H X registry tool_name params w)
    as Hkeep.
  unfold bind at 1. rewrite Hexec in *. cbn [snd] in Hkeep.
  unfold after_tool, bind, print, is_success. cbn [lift].
  destruct (eq_str tool_name (py "connect")) eqn:Hc.
  - assert (Hd : eq_str tool_name (py "disconnect") = false).
    { apply eq_str_eq in Hc. now subst tool_name. }
    rewrite Hd.
    destruct (py_getitem outcome (py "result")) as [r|e];
      [destruct (eq_str r (py "success"))|]; cbn; congruence.
  - destruct (eq_str tool_name (py "disconnect")) eqn:Hd.
    + destruct (py_getitem outcome (py "result")) as [r|e];
        [destruct (eq_str r (py "success"))|]; cbn; congruence.
    + cbn. congruence.
Qed.

(** C5: for a name that is not registered, [execute_tool] returns the
    failure [Unknown tool: <name>] and leaves the world as it was (no tool
    runs, nothing is announced); and a plan that starts with such an
    action goes on with the actions after it, in order. *)
Theorem unknown_tool_outcome (name : pystr) (params : PyVal)
  (d : list (PyVal * PyVal)) (rest : list PyVal) (w : World H) :
  registered registry (VStr name) = None ->
  py_get (VDict d) (py "name") VNone = Ok (VStr name) ->
  py_get (VDict d) (py "parameters") (VDict []) = Ok params ->
  execute_tool X registry (VStr name) params w
  = (Ok (unknown_tool name), w)
  /\ run_actions X registry (VDict d :: rest) w
     = run_actions X registry rest
         (log (PrintToolResult (VStr name) (unknown_tool name)) w).
Proof.
  intros Hreg Hname Hparams.
  pose proof (execute_tool_unknown H X registry (VStr name) params w Hreg I)
    as Hexec.
  split; [exact Hexec|].
  cbn [run_actions]. unfold bind at 1.
  rewrite (run_action_steps H X registry (VDict d) (VStr name) params w
             Hname Hparams).
  unfold bind at 1. rewrite Hexec. cbn [py_str]. unfold unknown_tool.
  now rewrite after_failed_tool.
Qed.


End Plans.

(* ================================================================== *)
(** ** The capabilities of ib.py *)

Section Capabilities.

Variable H : Type.
Variable X : Externals H.

Lemma ib_is_connected_run (o : option H) :
  ib_is_connected X o = (Ok (session_connected X o), o).
Proof. now destruct o. Qed.

(** C9: with no connected session, each of [qualifyContracts],
    [reqMktData], [placeOrder], [positions] and [accountValues] returns
    the failure [Not connected to IB TWS. Use 'connect' first.] on any
    arguments; it raises nothing and leaves [ib] as it was. *)
Theorem not_connected_is_failed_outcome (o : option H) :
  session_connected X o = false ->
  (forall symbol secType exchange currency,
      qualifyContracts X symbol secType exchange currency o
      = (Ok (failed NOT_CONNECTED), o))
  /\ (forall symbol secType exchange currency,
         reqMktData X symbol secType exchange currency o
         = (Ok (failed NOT_CONNECTED), o))
  /\ (forall symbol action quantity limitPrice secType exchange currency,
         placeOrder X symbol action quantity limitPrice secType exchange
           currency o
         = (Ok (failed NOT_CONNECTED), o))
  /\ (forall account,
         positions X account o = (Ok (failed NOT_CONNECTED), o))
  /\ (forall account,
         accountValues X account o = (Ok (failed NOT_CONNECTED), o)).
Proof.
  intros Hoff.
  repeat split; intros;
    unfold qualifyContracts, reqMktData, placeOrder, positions,
      accountValues, bind;
    rewrite ib_is_connected_run, Hoff; reflexivity.
Qed.

(** The tool [TOOLS] holds under a name is the call of the function of
    that name with the keywords of [params]. *)
Lemma call_with_cases (fname : pystr) (decls : list (pystr * option PyVal))
  (body : list (pystr * PyVal) -> IBM H PyVal) (params : PyVal)
  (o : option H) :
  (exists env, call_with fname decls body params o = body env o)
  \/ call_with fname decls body params o
     = (Raise (Interp (BadCall fname params)), o).
Proof.
  unfold call_with.
  destruct params; try (now right).
  destruct (keywords d) as [kw|]; [|now right].
  destruct (forallb _ kw); [|now right].
  destruct (bind_params decls kw) as [env|]; [left; eauto | now right].
Qed.

(** C10: with no connected session, [disconnect] returns the failure
    [No active connection to disconnect] and leaves [ib] as it was; and
    the action [disconnect] of a plan then only announces the call and
    reports that Outcome: [is_connected] keeps its value. *)
Theorem disconnect_without_session (d : list (PyVal * PyVal))
  (w : World H) :
  session_connected X (ib w) = false ->
  py_get (VDict d) (py "name") VNone = Ok (VStr (py "disconnect")) ->
  py_get (VDict d) (py "parameters") (VDict []) = Ok (VDict []) ->
  let outcome := failed (py "No active connection to disconnect") in
  disconnect X (ib w) = (Ok outcome, ib w)
  /\ run_action X (TOOLS X) (VDict d) w
     = (Ok tt,
        log (PrintToolResult (VStr (py "disconnect")) outcome)
          (log (PrintActivate (py "disconnect") (VDict [])) w))
  /\ is_connected (snd (run_action X (TOOLS X) (VDict d) w))
     = is_connected w.
Proof.
  intros Hoff Hname Hparams outcome.
  assert (Hdis : disconnect X (ib w) = (Ok outcome, ib w)).
  { unfold disconnect, bind. now rewrite ib_is_connected_run, Hoff. }
  assert (Hrun : run_action X (TOOLS X) (VDict d) w
                 = (Ok tt,
                    log (PrintToolResult (VStr (py "disconnect")) outcome)
                      (log (PrintActivate (py "disconnect") (VDict [])) w))).
  { rewrite (run_action_steps H X (TOOLS X) (VDict d)
               (VStr (py "disconnect")) (VDict []) w Hname Hparams).
    unfold bind at 1.
    rewrite (execute_tool_registered H X (TOOLS X) (py "disconnect")
               (call_with (py "disconnect") [] (fun _ => disconnect X))
               (VDict []) w eq_refl).
    change (call_with (py "disconnect") [] (fun _ => disconnect X)
              (VDict []) (ib w))
      with (disconnect X (ib w)).
    rewrite Hdis. cbn [fst snd].
    unfold outcome, failed, create_response.
    rewrite after_failed_tool. destruct w; reflexivity. }
  repeat split; [exact Hdis | exact Hrun | now rewrite Hrun].
Qed.

End Capabilities.

(* ================================================================== *)
(** ** The session loop *)

Section Session.

Variable H : Type.
Variable X : Externals H.
Variable registry : list (pystr * (PyVal -> IBM H PyVal)).

(** Once [call_openai] has returned, the turn ends normally: whatever
    the evaluation of the response or the dispatch raises is reported. *)
Lemma turn_reports_processing_errors (user_input ai_response : pystr)
  (w w1 : World H) :
  call_openai X user_input (is_connected w) w = (Ok ai_response, w1) ->
  fst (turn X registry user_input w) = Ok tt.
Proof.
  intros Hcall. unfold turn, bind, get_is_connected, try_except, print.
  rewrite Hcall.
  now destruct (process_response X registry ai_response w1) as [[[]|e] w2].
Qed.

(** What [call_openai] raises leaves the turn and the loop: the lines
    after it are never read. *)
Lemma main_loop_raises_with_call_openai (user_input : pystr) (e : PyExn)
  (rest : list pystr) (w w1 : World H) :
  is_exit user_input = false ->
  call_openai X user_input (is_connected w) (log InputPrompt w)
  = (Raise e, w1) ->
  main_loop X registry (user_input :: rest) w = (Raise e, w1).
Proof.
  intros Hexit Hcall. cbn [main_loop]. rewrite Hexit.
  unfold bind at 1. unfold print at 1. fold (log InputPrompt w).
  unfold bind at 1. unfold turn, bind at 1, get_is_connected.
  cbn [is_connected log]. unfold bind at 1. now rewrite Hcall.
Qed.

End Session.

(* ================================================================== *)
(** ** Runs in the small world *)

(** C2: a completion that streams nothing ends the session.  The
    operator enters [hello] and then [exit]; [call_openai] raises
    ValueError on the empty response, outside the [try] of [main], so
    [main] ends with that error and the second line is never read. *)
Theorem empty_response_ends_session :
  app_main Demo.X_silent [py "hello"; py "exit"] Demo.w0
  = (Raise (Raised (py "ValueError")
              (py "Empty response from streaming LLM")),
     {| is_connected := false; ib := None;
        console := [PrintNewline; InputPrompt; PrintGreeting] |}).
Proof. reflexivity. Qed.

(** By contrast, a response that cannot be evaluated is reported and the
    next line is read. *)
Lemma unparsable_response_is_reported :
  app_main Demo.X [py "hello"; py "exit"] Demo.w0
  = (Ok tt,
     {| is_connected := false; ib := None;
        console :=
          [InputPrompt;
           PrintError (Raised (py "SyntaxError") (py "invalid syntax"));
           PrintNewline; PrintChunk (py "hello"); InputPrompt;
           PrintGreeting] |}).
Proof. reflexivity. Qed.

(** C1, as stated, fails: the response [{}] evaluates to an object
    without [actions], and processing it raises nothing. *)
Lemma missing_actions_counterexample :
  py_eval Demo.X (py "{}") = Ok (VDict [])
  /\ dict_lookup [] (py "actions") = None
  /\ ~ exists e,
         fst (process_response Demo.X (TOOLS Demo.X) (py "{}") Demo.w0)
         = Raise e.
Proof.
  repeat split. intros [e He]. vm_compute in He. discriminate.
Qed.

Lemma missing_actions_is_empty_plan_witness :
  py_eval Demo.X (py "{}") = Ok (VDict [])
  /\ dict_lookup [] (py "actions") = None
  /\ process_response Demo.X (TOOLS Demo.X) (py "{}") Demo.w0
     = (Ok tt, log PrintNoActions Demo.w0).
Proof.
  split; [reflexivity | split; [reflexivity|]].
  apply (missing_actions_is_empty_plan bool Demo.X (TOOLS Demo.X)
           (py "{}") [] Demo.w0); reflexivity.
Defined.

(** C3, as stated, fails: the only action of this response has no
    [name]; processing the response raises nothing, and the action is
    dispatched under the name [None]. *)
Lemma nameless_action_counterexample :
  py_eval Demo.X (py "{'actions': [{'parameters': {}}]}")
  = Ok (VDict [(VStr (py "actions"),
                VList [VDict [(VStr (py "parameters"), VDict [])]])])
  /\ dict_lookup [(VStr (py "parameters"), VDict [])] (py "name") = None
  /\ process_response Demo.X (TOOLS Demo.X)
       (py "{'actions': [{'parameters': {}}]}") Demo.w0
     = (Ok tt,
        log (PrintToolResult VNone (unknown_tool (py "None"))) Demo.w0)
  /\ ~ exists e,
         fst (process_response Demo.X (TOOLS Demo.X)
                (py "{'actions': [{'parameters': {}}]}") Demo.w0)
         = Raise e.
Proof.
  repeat split. intros [e He]. vm_compute in He. discriminate.
Qed.

Lemma nameless_action_is_unknown_tool_witness :
  dict_lookup [(VStr (py "parameters"), VDict [])] (py "name") = None
  /\ run_actions Demo.X (TOOLS Demo.X)
       [VDict [(VStr (py "parameters"), VDict [])];
        VDict (Demo.action (py "connect") [])] Demo.w0
     = run_actions Demo.X (TOOLS Demo.X)
         [VDict (Demo.action (py "connect") [])]
         (log (PrintToolResult VNone (unknown_tool (py "None"))) Demo.w0).
Proof.
  split; [reflexivity|].
  apply (nameless_action_is_unknown_tool bool Demo.X (TOOLS Demo.X)
           [(VStr (py "parameters"), VDict [])]
           [VDict (Demo.action (py "connect") [])] Demo.w0).
  reflexivity.
Defined.

Lemma connection_state_rule_witness :
  is_connected
    (snd (run_action Demo.X (TOOLS Demo.X)
            (VDict (Demo.action (py "connect") [])) Demo.w0))
  = true.
Proof.
  refine (eq_trans
            (connection_state_rule bool Demo.X (TOOLS Demo.X)
               (VDict (Demo.action (py "connect") []))
               (VStr (py "connect")) (VDict [])
               (success
                  (VStr (py "Connected to IB TWS at 127.0.0.1:7497 with client ID 1")))
               Demo.w0
               {| is_connected := false; ib := Some true;
                  console := [PrintActivate (py "connect") (VDict [])] |}
               eq_refl eq_refl _) _).
  - vm_compute. reflexivity.
  - reflexivity.
Defined.

Lemma unknown_tool_outcome_witness :
  registered (TOOLS Demo.X) (VStr (py "bogus")) = None
  /\ execute_tool Demo.X (TOOLS Demo.X) (VStr (py "bogus")) (VDict [])
       Demo.w0
     = (Ok (unknown_tool (py "bogus")), Demo.w0)
  /\ run_actions Demo.X (TOOLS Demo.X)
       [VDict (Demo.action (py "bogus") []);
        VDict (Demo.action (py "connect") [])] Demo.w0
     = run_actions Demo.X (TOOLS Demo.X)
         [VDict (Demo.action (py "connect") [])]
         (log (PrintToolResult (VStr (py "bogus"))
                 (unknown_tool (py "bogus"))) Demo.w0).
Proof.
  split; [reflexivity|].
  apply (unknown_tool_outcome bool Demo.X (TOOLS Demo.X) (py "bogus")
           (VDict []) (Demo.action (py "bogus") [])
           [VDict (Demo.action (py "connect") [])] Demo.w0);
    reflexivity.
Defined.


Lemma not_connected_is_failed_outcome_witness :
  session_connected Demo.X (Some false) = false
  /\ reqMktData Demo.X (VStr (py "AAPL")) (VStr (py "STK"))
       (VStr (py "SMART")) (VStr (py "USD")) (Some false)
     = (Ok (failed NOT_CONNECTED), Some false)
  /\ positions Demo.X (VStr []) None = (Ok (failed NOT_CONNECTED), None).
Proof.
  split; [reflexivity | split].
  - apply (not_connected_is_failed_outcome bool Demo.X (Some false)).
    reflexivity.
  - apply (not_connected_is_failed_outcome bool Demo.X None). reflexivity.
Defined.

Lemma disconnect_without_session_witness :
  session_connected Demo.X (ib Demo.w0) = false
  /\ disconnect Demo.X (ib Demo.w0)
     = (Ok (failed (py "No active connection to disconnect")),
        ib Demo.w0)
  /\ is_connected
       (snd (run_action Demo.X (TOOLS Demo.X)
               (VDict (Demo.action (py "disconnect") [])) Demo.w0))
     = is_connected Demo.w0.
Proof.
  split; [reflexivity|].
  destruct (disconnect_without_session bool Demo.X
              (Demo.action (py "disconnect") []) Demo.w0
              eq_refl eq_refl eq_refl) as [Hdis [_ Hkeep]].
  split; [exact Hdis | exact Hkeep].
Defined.

(* ================================================================== *)
(** ** Further properties: the description of a schema *)

Section Descriptions.

Local Abbreviation nonspace := (fun c : N => negb (isspace c)).

Lemma filter_word (w : pystr) :
  forallb nonspace w = true -> filter nonspace w = w.
Proof.
  induction w as [|c w IH]; cbn; [reflexivity|].
  intros Hw. apply andb_true_iff in Hw as [Hc Hw].
  rewrite Hc. f_equal. now apply IH.
Qed.

Lemma split_from_letters (s : pystr) :
  forall cur,
    forallb nonspace cur = true ->
    List.concat (split_from cur s) = cur ++ filter nonspace s.
Proof.
  induction s as [|c s IH]; intros cur Hcur; cbn [split_from filter].
  - destruct cur; cbn; now rewrite ?app_nil_r.
  - destruct (isspace c) eqn:Hc; cbn [negb].
    + destruct cur as [|x cur].
      * now apply IH.
      * cbn [List.concat]. now rewrite (IH [] eq_refl).
    + rewrite IH, <- app_assoc; [reflexivity|].
      rewrite forallb_app, Hcur. cbn. now rewrite Hc.
Qed.

Lemma join_letters (ws : list pystr) :
  Forall is_word ws ->
  filter nonspace (join [SPACE] ws) = List.concat ws.
Proof.
  induction 1 as [|w ws [_ Hw] Hws IH]; [reflexivity|].
  destruct ws as [|w' ws].
  - cbn. rewrite app_nil_r. now apply filter_word.
  - change (join [SPACE] (w :: w' :: ws))
      with (w ++ SPACE :: join [SPACE] (w' :: ws)).
    rewrite filter_app, (filter_word w Hw). cbn [filter].
    change (nonspace SPACE) with false. cbv iota. rewrite IH.
    reflexivity.
Qed.

(** The words of a text that is already normalized, joined again, give
    the text back. *)
Lemma join_split_spaced (s : pystr) :
  forall cur,
    forallb nonspace cur = true ->
    spaced_from match cur with [] => false | _ => true end s = true ->
    join [SPACE] (split_from cur s) = cur ++ s.
Proof.
  induction s as [|c s IH]; intros cur Hcur Hs; cbn [split_from].
  - destruct cur; [discriminate | now rewrite app_nil_r].
  - cbn [spaced_from] in Hs. destruct (isspace c) eqn:Hc.
    + apply andb_true_iff in Hs as [Hs Hs']. apply andb_true_iff in Hs as [Hb Hsp].
      apply N.eqb_eq in Hsp. subst c.
      destruct cur as [|x cur]; [discriminate|].
      pose proof (IH [] eq_refl Hs') as Hrest. cbn [app] in Hrest.
      destruct (split_from [] s) as [|w ws] eqn:E.
      * cbn in Hrest. subst s. discriminate.
      * change (join [SPACE] ((x :: cur) :: w :: ws))
          with ((x :: cur) ++ SPACE :: join [SPACE] (w :: ws)).
        now rewrite Hrest.
    + rewrite IH.
      * now rewrite <- app_assoc.
      * rewrite forallb_app, Hcur. cbn. now rewrite Hc.
      * destruct cur; exact Hs.
Qed.

End Descriptions.

Lemma schema_shape (tool_name : pystr) (f : Signature) :
  get_tool_schema tool_name f
  = tool_name ++ py ": Parameters: " ++ parameter_list (parameters f)
      ++ py ". " ++ join [SPACE] (split (description_source f)).
Proof.
  unfold get_tool_schema, parameter_list. rewrite schema_loop. cbn [app].
  fold (description_source f).
  destruct (parameters f) as [|p ps]; reflexivity.
Qed.

(** X1: the description of a schema keeps every character of the
    docstring that is not whitespace, in order: the normalization only
    removes or replaces whitespace. *)
Theorem description_keeps_letters (tool_name : pystr) (f : Signature) :
  exists description,
    get_tool_schema tool_name f
    = tool_name ++ py ": Parameters: " ++ parameter_list (parameters f)
        ++ py ". " ++ description
    /\ filter (fun c => negb (isspace c)) description
       = filter (fun c => negb (isspace c)) (description_source f).
Proof.
  exists (join [SPACE] (split (description_source f))).
  split; [apply schema_shape|].
  rewrite join_letters by apply split_words.
  unfold split. now rewrite split_from_letters.
Qed.

(** X2: a docstring that is already whitespace-normalized (and not
    empty) is the description of the schema, character for character. *)
Theorem normalized_docstring_is_kept (tool_name : pystr) (f : Signature)
  (d : pystr) :
  getdoc f = Some d ->
  d <> [] ->
  whitespace_normalized d = true ->
  get_tool_schema tool_name f
  = tool_name ++ py ": Parameters: " ++ parameter_list (parameters f)
      ++ py ". " ++ d.
Proof.
  intros Hdoc Hne Hnorm. rewrite schema_shape.
  unfold description_source. rewrite Hdoc.
  destruct d as [|c d]; [congruence|].
  unfold split. rewrite (join_split_spaced (c :: d) [] eq_refl Hnorm).
  reflexivity.
Qed.

Lemma normalized_docstring_is_kept_witness :
  let f := {| parameters := []; getdoc := Some (py "Connect to IB TWS.") |} in
  get_tool_schema (py "connect") f
  = py "connect: Parameters: No parameters. Connect to IB TWS.".
Proof.
  intros f.
  rewrite (normalized_docstring_is_kept (py "connect") f
             (py "Connect to IB TWS.") eq_refl);
    [reflexivity | discriminate | reflexivity].
Defined.

(* ================================================================== *)
(** ** Further properties: the completion client *)

Lemma lstrip_head (s : pystr) (a : N) (rest : pystr) :
  lstrip s = a :: rest -> isspace a = false.
Proof.
  induction s as [|c s IH]; cbn; [discriminate|].
  destruct (isspace c) eqn:Hc; [exact IH | congruence].
Qed.

Lemma lstrip_empty (s : pystr) :
  lstrip s = [] <-> forallb isspace s = true.
Proof.
  induction s as [|c s IH]; cbn; [tauto|].
  destruct (isspace c); cbn; [exact IH | split; discriminate].
Qed.

Lemma lstrip_spaces (s : pystr) :
  forallb isspace (lstrip s) = true -> lstrip s = [].
Proof.
  destruct (lstrip s) as [|a rest] eqn:E; [reflexivity|].
  cbn. now rewrite (lstrip_head s a rest E).
Qed.

Lemma forallb_rev {A} (f : A -> bool) (l : list A) :
  forallb f (rev l) = forallb f l.
Proof.
  induction l as [|x l IH]; [reflexivity|]. cbn.
  rewrite forallb_app, IH. cbn. now rewrite andb_true_r, andb_comm.
Qed.

(** Stripping leaves nothing exactly when there is only whitespace. *)
Lemma strip_empty (s : pystr) :
  strip s = [] <-> forallb isspace s = true.
Proof.
  unfold strip, rstrip. rewrite <- lstrip_empty. split.
  - intros Hs. apply (f_equal (@rev N)) in Hs. rewrite rev_involutive in Hs.
    cbn in Hs. apply lstrip_empty in Hs. rewrite forallb_rev in Hs.
    now apply lstrip_spaces.
  - intros ->. reflexivity.
Qed.

Lemma lstrip_last (a : pystr) (x : N) :
  isspace x = false -> lstrip (a ++ [x]) = lstrip a ++ [x].
Proof.
  intros Hx. induction a as [|c a IH]; cbn; [now rewrite Hx|].
  now destruct (isspace c).
Qed.

Lemma strip_first (s : pystr) (a : N) (rest : pystr) :
  strip s = a :: rest -> isspace a = false.
Proof.
  unfold strip, rstrip. destruct (lstrip s) as [|x t] eqn:E;
    [discriminate|].
  pose proof (lstrip_head s x t E) as Hx.
  cbn [rev]. rewrite (lstrip_last _ x Hx), rev_app_distr. cbn.
  now intros [= <- _].
Qed.

Lemma strip_last (s front : pystr) (a : N) :
  strip s = front ++ [a] -> isspace a = false.
Proof.
  unfold strip, rstrip. intros Hs.
  apply (f_equal (@rev N)) in Hs.
  rewrite rev_involutive, rev_app_distr in Hs. cbn in Hs.
  exact (lstrip_head _ _ _ Hs).
Qed.

Lemma normalize_booleans_capitalise (s : pystr) :
  normalize_booleans s
  = capitalise (py "true") 84%N (capitalise (py "false") 70%N s).
Proof.
  unfold normalize_booleans.
  change (py "false") with (102%N :: py "alse").
  change (py "False") with (70%N :: py "alse").
  change (py "true") with (116%N :: py "rue").
  change (py "True") with (84%N :: py "rue").
  rewrite 2 re_sub_capitalise; [reflexivity | |];
    cbn; intuition discriminate.
Qed.

(** Capitalising a letter that is no whitespace by one that is none
    either leaves whitespace where it was. *)
Lemma capitalise_spaces (h : N) (tl : pystr) (c : N) (s : pystr) :
  isspace h = isspace c ->
  map isspace (capitalise (h :: tl) c s) = map isspace s.
Proof.
  intros Hhc. induction s as [|x s IH]; [reflexivity|].
  cbn [capitalise map]. rewrite IH. f_equal.
  destruct (startswith (h :: tl) (x :: s)) eqn:Hm; [|reflexivity].
  cbn [startswith] in Hm. apply andb_true_iff in Hm as [Hx _].
  apply N.eqb_eq in Hx. now subst x.
Qed.

Lemma normalize_booleans_spaces (s : pystr) :
  map isspace (normalize_booleans s) = map isspace s.
Proof.
  rewrite normalize_booleans_capitalise.
  change (py "false") with (102%N :: py "alse").
  change (py "true") with (116%N :: py "rue").
  now rewrite !capitalise_spaces.
Qed.

(** No occurrence of a pattern is left where its first letter has been
    replaced by a letter foreign to it. *)
Lemma capitalise_clears (h : N) (tl : pystr) (c : N) (s : pystr) :
  ~ In h tl -> ~ In c (h :: tl) ->
  startswith (h :: tl) (capitalise (h :: tl) c s) = false.
Proof.
  intros Hh Hc. destruct s as [|x s]; [reflexivity|].
  cbn [capitalise].
  change (startswith (h :: tl) (?y :: ?t))
    with ((h =? y)%N && startswith tl t).
  rewrite (startswith_capitalise h tl c tl Hh);
    [| intros Hi; apply Hc; now right].
  destruct (startswith (h :: tl) (x :: s)) eqn:Hm; [|exact Hm].
  destruct (N.eqb_spec h c) as [->|_]; [|reflexivity].
  exfalso. apply Hc. now left.
Qed.

(** X3: the returned text holds no [false] and no [true] any more, at
    any position. *)
Theorem normalize_booleans_leaves_no_token (text : pystr) (i : nat) :
  startswith (py "false") (skipn i (normalize_booleans text)) = false
  /\ startswith (py "true") (skipn i (normalize_booleans text)) = false.
Proof.
  rewrite normalize_booleans_capitalise.
  change (py "false") with (102%N :: py "alse").
  change (py "true") with (116%N :: py "rue").
  rewrite !skipn_capitalise. split.
  - rewrite (startswith_capitalise 116%N (py "rue") 84%N
               (102%N :: py "alse"));
      [| cbn; intuition discriminate | cbn; intuition discriminate].
    apply capitalise_clears; cbn; intuition discriminate.
  - apply capitalise_clears; cbn; intuition discriminate.
Qed.

Lemma capitalise_nothing (pat : pystr) (c : N) (s : pystr) :
  (forall i, startswith pat (skipn i s) = false) ->
  capitalise pat c s = s.
Proof.
  induction s as [|x s IH]; intros Hnone; [reflexivity|].
  cbn [capitalise]. pose proof (Hnone 0) as H0. cbn [skipn] in H0.
  rewrite H0. f_equal.
  apply IH. intros i. exact (Hnone (S i)).
Qed.

(** X4: the substitutions change the text exactly when it holds an
    occurrence of [false] or of [true]. *)
Theorem normalize_booleans_fixes (text : pystr) :
  normalize_booleans text = text
  <-> forall i, startswith (py "false") (skipn i text) = false
                /\ startswith (py "true") (skipn i text) = false.
Proof.
  split.
  - intros Hfix i. rewrite <- Hfix.
    apply normalize_booleans_leaves_no_token.
  - intros Hnone. rewrite normalize_booleans_capitalise.
    rewrite (capitalise_nothing (py "false") 70%N text)
      by (intros i; apply Hnone).
    apply capitalise_nothing. intros i. apply Hnone.
Qed.

Section ClientRuns.

Variable H : Type.
Variable X : Externals H.

(** Every way [call_openai] can go. *)
Lemma call_openai_cases (prompt : pystr) (connected : bool) (w : World H) :
  call_openai X prompt connected w
  = match chat_completions_create X (sent_prompt X connected) prompt with
    | Raise e => (Raise e, w)
    | Ok response =>
        match broken response with
        | Some e => (Raise e, echo (deltas response) w)
        | None =>
            match strip (accumulated (deltas response)) with
            | [] => (Raise (Raised (py "ValueError")
                              (py "Empty response from streaming LLM")),
                     log PrintNewline (echo (deltas response) w))
            | c :: text' => (Ok (normalize_booleans (c :: text')),
                             log PrintNewline (echo (deltas response) w))
            end
        end
    end.
Proof.
  destruct (chat_completions_create X (sent_prompt X connected) prompt)
    as [response|e] eqn:Hcreate.
  - destruct (broken response) as [e|] eqn:Hbroken.
    + unfold call_openai, bind. fold (sent_prompt X connected).
      cbn [lift]. rewrite Hcreate, receive_collects, Hbroken. reflexivity.
    + now apply call_openai_run.
  - unfold call_openai, bind. fold (sent_prompt X connected).
    cbn [lift]. now rewrite Hcreate.
Qed.

Lemma echo_state (chunks : list (option pystr)) :
  forall w : World H,
    is_connected (echo chunks w) = is_connected w
    /\ ib (echo chunks w) = ib w
    /\ console (echo chunks w)
       = rev (map (fun c => PrintChunk match c with
                                       | Some s => s
                                       | None => []
                                       end) chunks)
           ++ console w.
Proof.
  unfold echo. induction chunks as [|c chunks IH]; intros w; cbn.
  - auto.
  - destruct (IH (log (PrintChunk match c with Some s => s | None => [] end)
                    w)) as [Hc [Hi Hout]].
    rewrite Hc, Hi, Hout, <- app_assoc. auto.
Qed.

(** X5: on a stream that ends normally, [call_openai] raises its
    ValueError exactly when the accumulated text is empty or all
    whitespace. *)
Theorem empty_response_is_whitespace_only (prompt : pystr)
  (connected : bool) (w : World H) (response : Stream) :
  chat_completions_create X (sent_prompt X connected) prompt = Ok response ->
  broken response = None ->
  (exists e, fst (call_openai X prompt connected w) = Raise e)
  <-> forallb isspace (accumulated (deltas response)) = true.
Proof.
  intros Hcreate Hbroken. rewrite call_openai_cases, Hcreate, Hbroken.
  rewrite <- strip_empty.
  destruct (strip (accumulated (deltas response))) as [|c text'].
  - split; [reflexivity | intros _; eexists; reflexivity].
  - split; [intros [e He]; discriminate | discriminate].
Qed.

(** X6: the text [call_openai] returns is never empty and neither
    starts nor ends with whitespace. *)
Theorem returned_text_is_stripped (prompt : pystr) (connected : bool)
  (w : World H) (full_response : pystr) :
  fst (call_openai X prompt connected w) = Ok full_response ->
  full_response <> []
  /\ (forall a rest, full_response = a :: rest -> isspace a = false)
  /\ (forall front a, full_response = front ++ [a] -> isspace a = false).
Proof.
  rewrite call_openai_cases.
  destruct (chat_completions_create X (sent_prompt X connected) prompt)
    as [response|e]; [|discriminate].
  destruct (broken response); [discriminate|].
  destruct (strip (accumulated (deltas response))) as [|c text'] eqn:E;
    [discriminate|].
  cbn [fst]. intros [= <-].
  pose proof (normalize_booleans_spaces (c :: text')) as Hsp.
  repeat split.
  - intros Hnil. rewrite Hnil in Hsp. discriminate.
  - intros a rest Hr. rewrite Hr in Hsp. cbn in Hsp.
    injection Hsp as Ha _. rewrite Ha.
    exact (strip_first _ c text' E).
  - intros front a Hr. rewrite Hr, map_app in Hsp. cbn [map] in Hsp.
    symmetry in Hsp.
    change (map isspace (c :: text') = map isspace front ++ [isspace a])
      in Hsp.
    apply map_eq_app in Hsp as [l1 [l2 [Hl [_ Hl2]]]].
    destruct l2 as [|b [|b' l2]]; try discriminate.
    injection Hl2 as Hb. rewrite <- Hb.
    rewrite Hl in E. exact (strip_last _ l1 b E).
Qed.

(** X7: [call_openai] touches nothing but the console: [is_connected]
    and [ib] are as before however it ends, and what was on the console
    stays there. *)
Theorem call_openai_only_prints (prompt : pystr) (connected : bool)
  (w : World H) :
  is_connected (snd (call_openai X prompt connected w)) = is_connected w
  /\ ib (snd (call_openai X prompt connected w)) = ib w
  /\ exists out,
       console (snd (call_openai X prompt connected w)) = out ++ console w.
Proof.
  rewrite call_openai_cases.
  destruct (chat_completions_create X (sent_prompt X connected) prompt)
    as [response|e]; [|repeat split; now exists []].
  destruct (echo_state (deltas response) w) as [Hc [Hi Hout]].
  destruct (broken response);
    [| destruct (strip (accumulated (deltas response)))];
    cbn [snd log is_connected ib console]; rewrite ?Hc, ?Hi, ?Hout;
    repeat split; eexists; try reflexivity;
    now rewrite app_comm_cons.
Qed.

End ClientRuns.

(* ================================================================== *)
(** ** Further properties: dispatch and the session loop *)

Section Sessions.

Variable H : Type.
Variable X : Externals H.
Variable registry : list (pystr * (PyVal -> IBM H PyVal)).


Lemma bind_assoc {S A B C} (c : SE S A) (k : A -> SE S B)
  (k' : B -> SE S C) (w : S) :
  bind (bind c k) k' w = bind c (fun a => bind (k a) k') w.
Proof. unfold bind. now destruct (c w) as [[a|e] w']. Qed.

(** X9: dispatching a plan is dispatching its first part and then, if
    that raised nothing, the rest, from the world the first part left. *)
Theorem run_actions_app (actions rest : list PyVal) (w : World H) :
  run_actions X registry (actions ++ rest) w
  = match run_actions X registry actions w with
    | (Ok _, w1) => run_actions X registry rest w1
    | (Raise e, w1) => (Raise e, w1)
    end.
Proof.
  revert w. induction actions as [|action actions IH]; intros w;
    [reflexivity|].
  cbn [app run_actions]. unfold bind.
  destruct (run_action X registry action w) as [[[]|e] w1];
    [apply IH | reflexivity].
Qed.

(** X10: when the value under [actions] is false in a test (an empty
    list, [None], an empty string, zero), the turn only reports that no
    actions were returned. *)
Theorem falsy_actions_is_empty_plan (ai_response : pystr)
  (response_data actions : PyVal) (w : World H) :
  py_eval X ai_response = Ok response_data ->
  py_get response_data (py "actions") (VList []) = Ok actions ->
  truthy actions = false ->
  process_response X registry ai_response w
  = (Ok tt, log PrintNoActions w).
Proof.
  intros Heval Hget Hfalse. unfold process_response, bind. cbn [lift].
  now rewrite Heval, Hget, Hfalse.
Qed.


(** One action changes [is_connected] only as its name allows. *)
Lemma run_action_is_connected (action : PyVal) (w : World H) :
  let after := is_connected (snd (run_action X registry action w)) in
  after = is_connected w
  \/ (py_get action (py "name") VNone = Ok (VStr (py "connect"))
      /\ after = true)
  \/ (py_get action (py "name") VNone = Ok (VStr (py "disconnect"))
      /\ after = false).
Proof.
  cbv zeta.
  remember (is_connected (snd (run_action X registry action w))) as after
    eqn:Hafter.
  destruct (py_get action (py "name") VNone) as [tool_name|e] eqn:Hname.
  2: { left. subst after. unfold run_action, bind. cbn [lift].
       now rewrite Hname. }
  destruct (py_get action (py "parameters") (VDict [])) as [params|e]
    eqn:Hparams.
  2: { left. subst after. unfold run_action, bind. cbn [lift].
       now rewrite Hname, Hparams. }
  rewrite (run_action_steps H X registry action tool_name params w Hname
             Hparams) in Hafter.
  pose proof (execute_tool_is_connected H X registry tool_name params w)
    as Hkeep.
  unfold bind at 1 in Hafter.
  destruct (execute_tool X registry tool_name params w)
    as [[outcome|e] w1]; cbn [snd] in *; [|left; congruence].
  unfold after_tool, bind, print in Hafter. cbn [lift] in Hafter.
  destruct (eq_str tool_name (py "connect")) eqn:Hc.
  - apply eq_str_eq in Hc. subst tool_name.
    destruct (py_getitem outcome (py "result")) as [r|e];
      [destruct (eq_str r (py "success"))|];
      cbn [snd is_connected set_is_connected ret] in Hafter;
      [right; left; auto | left; congruence | left; congruence].
  - destruct (eq_str tool_name (py "disconnect")) eqn:Hd.
    + apply eq_str_eq in Hd. subst tool_name.
      destruct (py_getitem outcome (py "result")) as [r|e];
        [destruct (eq_str r (py "success"))|];
        cbn [snd is_connected set_is_connected ret] in Hafter;
        [right; right; auto | left; congruence | left; congruence].
    + cbn [snd is_connected ret] in Hafter. left. congruence.
Qed.

(** X12: a plan in which no action is named [connect] never turns
    [is_connected] on, and one in which none is named [disconnect] never
    turns it off, whatever the tools return or raise. *)
Theorem plan_keeps_connection_state (actions : list PyVal) (name : pystr)
  (b : bool) (w : World H) :
  (name = py "connect" /\ b = false)
  \/ (name = py "disconnect" /\ b = true) ->
  Forall (fun action =>
            py_get action (py "name") VNone <> Ok (VStr name)) actions ->
  is_connected w = b ->
  is_connected (snd (run_actions X registry actions w)) = b.
Proof.
  intros Hname Hplan. revert w.
  induction Hplan as [|action actions Haction Hplan IH]; intros w Hw;
    [exact Hw|].
  cbn [run_actions]. unfold bind.
  pose proof (run_action_is_connected action w) as Hstep. cbv zeta in Hstep.
  destruct (run_action X registry action w) as [[[]|e] w1];
    cbn [snd] in *.
  - apply IH.
    destruct Hname as [[-> ->]|[-> ->]];
      destruct Hstep as [Hs|[[Hn Hs]|[Hn Hs]]]; congruence.
  - destruct Hname as [[-> ->]|[-> ->]];
      destruct Hstep as [Hs|[[Hn Hs]|[Hn Hs]]]; congruence.
Qed.

(** X13: [main] ends normally only at a line that reads [exit]; when
    the lines run out before, [input] raises. *)
Theorem main_loop_ends_at_exit (inputs : list pystr) (w : World H) :
  fst (main_loop X registry inputs w) = Ok tt ->
  existsb is_exit inputs = true.
Proof.
  revert w. induction inputs as [|user_input rest IH]; intros w.
  - cbn. discriminate.
  - cbn [main_loop existsb]. destruct (is_exit user_input); [reflexivity|].
    cbn [orb]. unfold bind at 1. unfold print at 1.
    unfold bind at 1.
    destruct (turn X registry user_input _) as [[[]|e] w1];
      [apply IH | discriminate].
Qed.

End Sessions.

(* ================================================================== *)
(** ** Further properties: the capabilities and their registry *)



Lemma success_is_success (message : PyVal) :
  is_success (success message) = true.
Proof. reflexivity. Qed.

Section Broker.

Variable H : Type.
Variable X : Externals H.




End Broker.

Section Registry.

Variable H : Type.
Variable X : Externals H.

Lemma registered_iff (tools : list (pystr * (PyVal -> IBM H PyVal)))
  (tool_name : PyVal) :
  (exists entry, registered tools tool_name = Some entry)
  <-> exists name, tool_name = VStr name /\ In name (map fst tools).
Proof.
  induction tools as [|[n t] tools IH]; cbn [registered map fst In].
  - split; [intros [entry He]; discriminate | intros [name [_ []]]].
  - destruct (eq_str tool_name n) eqn:E.
    + apply eq_str_eq in E. split; eauto.
    + rewrite IH. split; intros [name [Hv Hin]]; exists name;
        (split; [exact Hv|]); [now right|].
      destruct Hin as [<-|Hin]; [|exact Hin].
      subst tool_name. cbn in E. rewrite (proj2 (pystr_eqb_eq n n) eq_refl) in E.
      discriminate.
Qed.

(** X17: the names [execute_tool] knows are the seven strings ib.py
    registers, letter for letter; any other value, and so any other
    spelling, is no registered tool. *)
Theorem registered_tools (tool_name : PyVal) :
  (exists entry, registered (TOOLS X) tool_name = Some entry)
  <-> exists name,
        tool_name = VStr name
        /\ In name [py "connect"; py "disconnect"; py "qualifyContracts";
                    py "reqMktData"; py "placeOrder"; py "positions";
                    py "accountValues"].
Proof. apply registered_iff. Qed.

Lemma keywords_length (d : list (PyVal * PyVal))
  (kw : list (pystr * PyVal)) :
  keywords d = Some kw -> List.length kw = List.length d.
Proof.
  revert kw. induction d as [|[k v] d IH]; intros kw; cbn.
  - now intros [= <-].
  - destruct k; try discriminate.
    destruct (keywords d) as [kw'|]; [|discriminate].
    intros [= <-]. cbn. now rewrite (IH kw' eq_refl).
Qed.

(** X18: [connect] and [disconnect] take no parameter: called with any
    keyword at all, the call itself raises TypeError, so that
    [execute_tool] only announces it and returns the failure
    [Error executing <name>: ...]; [ib] is not touched. *)
Theorem parameters_for_no_parameter_tool (name : pystr)
  (kv : PyVal * PyVal) (d : list (PyVal * PyVal)) (w : World H) :
  name = py "connect" \/ name = py "disconnect" ->
  let params := VDict (kv :: d) in
  execute_tool X (TOOLS X) (VStr name) params w
  = (Ok (capability_error X name (Interp (BadCall name params))),
     log (PrintActivate name params) w).
Proof.
  intros Hname params.
  assert (Hcall : forall (body : list (pystr * PyVal) -> IBM H PyVal)
                         (o : option H),
             call_with name [] body params o
             = (Raise (Interp (BadCall name params)), o)).
  { intros body o. unfold call_with, params.
    destruct (keywords (kv :: d)) as [kw|] eqn:Hkw; [|reflexivity].
    apply keywords_length in Hkw.
    destruct kw as [|k kw]; [discriminate | reflexivity]. }
  destruct Hname as [-> | ->].
  - rewrite (execute_tool_registered H X (TOOLS X) (py "connect")
               (call_with (py "connect") [] (fun _ => connect X))
               params w eq_refl).
    rewrite Hcall. destruct w; reflexivity.
  - rewrite (execute_tool_registered H X (TOOLS X) (py "disconnect")
               (call_with (py "disconnect") [] (fun _ => disconnect X))
               params w eq_refl).
    rewrite Hcall. destruct w; reflexivity.
Qed.



(** X21: when [ib.qualifyContracts] returns an empty list,
    [qualifyContracts] returns the failure
    [Contract qualification failed]. *)
Theorem nothing_qualified_is_failure
  (symbol secType exchange currency contract qualified : PyVal)
  (h h' : H) :
  IB_isConnected X h = true ->
  ib_insync_new X (py "Stock") [symbol; exchange; currency] = Ok contract ->
  IB_method X (py "qualifyContracts") [contract] h = (Ok qualified, h') ->
  truthy qualified = false ->
  qualifyContracts X symbol secType exchange currency (Some h)
  = (Ok (failed (py "Contract qualification failed")), Some h').
Proof.
  intros Hon Hstock Hqualify Hempty.
  unfold qualifyContracts, bind, try_except.
  rewrite ib_is_connected_run. cbn [session_connected]. rewrite Hon.
  cbn [negb lift]. rewrite Hstock. unfold ib_call.
  now rewrite Hqualify, Hempty.
Qed.

(** X22: the system prompt tells the connection status: the prompt sent
    while connected differs from the one sent while not. *)
Theorem prompt_tells_connection_status :
  sent_prompt X true <> sent_prompt X false.
Proof.
  unfold sent_prompt, system_prompt. intros Heq.
  do 2 apply app_inv_head in Heq. discriminate.
Qed.

End Registry.

(* ================================================================== *)
(** ** Further runs in the small worlds *)

Lemma empty_response_is_whitespace_only_witness :
  (exists e, fst (call_openai Demo.X (py "  ") false Demo.w0) = Raise e)
  <-> forallb isspace (accumulated [Some (py "  ")]) = true.
Proof.
  apply (empty_response_is_whitespace_only bool Demo.X (py "  ") false
           Demo.w0 {| deltas := [Some (py "  ")]; broken := None |});
    reflexivity.
Defined.

Lemma returned_text_is_stripped_witness :
  fst (call_openai Demo.X (py " true ") false Demo.w0) = Ok (py "True")
  /\ py "True" <> []
  /\ (forall a rest, py "True" = a :: rest -> isspace a = false)
  /\ (forall front a, py "True" = front ++ [a] -> isspace a = false).
Proof.
  split; [reflexivity|].
  apply (returned_text_is_stripped bool Demo.X (py " true ") false
           Demo.w0 (py "True")).
  reflexivity.
Defined.

Lemma falsy_actions_is_empty_plan_witness :
  process_response Faulty.X (TOOLS Faulty.X) (py "{'actions': []}")
    Demo.w0
  = (Ok tt, log PrintNoActions Demo.w0).
Proof.
  apply (falsy_actions_is_empty_plan bool Faulty.X (TOOLS Faulty.X)
           (py "{'actions': []}")
           (VDict [(VStr (py "actions"), VList [])]) (VList []) Demo.w0);
    reflexivity.
Defined.


Lemma plan_keeps_connection_state_witness :
  is_connected
    (snd (run_actions Demo.X (TOOLS Demo.X)
            [VDict (Demo.action (py "disconnect") []);
             VDict (Demo.action (py "bogus") [])] Demo.w0))
  = false.
Proof.
  apply (plan_keeps_connection_state bool Demo.X (TOOLS Demo.X)
           [VDict (Demo.action (py "disconnect") []);
            VDict (Demo.action (py "bogus") [])]
           (py "connect") false Demo.w0).
  - left. split; reflexivity.
  - repeat constructor; discriminate.
  - reflexivity.
Defined.

Lemma main_loop_ends_at_exit_witness :
  fst (main_loop Demo.X (TOOLS Demo.X) [py "{}"; py "Exit"] Demo.w0)
  = Ok tt
  /\ existsb is_exit [py "{}"; py "Exit"] = true.
Proof.
  split; [reflexivity|].
  apply (main_loop_ends_at_exit bool Demo.X (TOOLS Demo.X)
           [py "{}"; py "Exit"] Demo.w0).
  reflexivity.
Defined.


Lemma parameters_for_no_parameter_tool_witness :
  let params := VDict [(VStr (py "host"), VStr (py "x"))] in
  execute_tool Demo.X (TOOLS Demo.X) (VStr (py "connect")) params Demo.w0
  = (Ok (capability_error Demo.X (py "connect")
           (Interp (BadCall (py "connect") params))),
     log (PrintActivate (py "connect") params) Demo.w0).
Proof.
  apply (parameters_for_no_parameter_tool bool Demo.X (py "connect")
           (VStr (py "host"), VStr (py "x")) [] Demo.w0).
  now left.
Defined.



Lemma nothing_qualified_is_failure_witness :
  qualifyContracts Demo.X (VStr (py "AAPL")) (VStr (py "STK"))
    (VStr (py "SMART")) (VStr (py "USD")) (Some true)
  = (Ok (failed (py "Contract qualification failed")), Some true).
Proof.
  apply (nothing_qualified_is_failure bool Demo.X (VStr (py "AAPL"))
           (VStr (py "STK")) (VStr (py "SMART")) (VStr (py "USD"))
           (VList [VStr (py "AAPL"); VStr (py "SMART"); VStr (py "USD")])
           (VList []) true true);
    reflexivity.
Defined.
